(** * Jira refinement agent: prompt builder, tool gateway client and agent loop

    A shallow embedding of the Python sources

      - [app/models/domain.py]            (project configuration records)
      - [app/llm/prompts.py]              (agent-mode prompt builder)
      - [app/llm/client.py]               (tool-calling chat completion wrapper)
      - [app/jira/mcp_client.py]          (MCP tool gateway client)
      - [app/services/refinement_service.py] (the bounded agent loop)

    Python [str] values are modelled as [string] (the UTF-8 bytes of the
    text), dictionaries of fixed shape as records, [None]-able attributes as
    [option], and the two external services (chat completions, MCP session)
    as transition functions on an abstract world.  Exceptions are values of
    [Exn]; they stand for instances of Python's [Exception], the class the
    agent loop's handler catches. *)

From Stdlib Require Import String Ascii List Bool Arith Lia.
From Stdlib Require Import ZArith DecimalString.
Import ListNotations.
Open Scope string_scope.

(** ** Python string helpers *)

Module PyStr.

Definition nl : string := String (ascii_of_nat 10) EmptyString.
Definition dq : string := String (ascii_of_nat 34) EmptyString.

(** [bool(s)] for a string. *)
Definition truthy (s : string) : bool :=
  match s with
  | EmptyString => false
  | String _ _ => true
  end.

(** [s or d] for strings. *)
Definition or_else (s d : string) : string :=
  if truthy s then s else d.

(** [o or d] where [o] may be [None]. *)
Definition opt_or (o : option string) (d : string) : string :=
  match o with
  | Some s => or_else s d
  | None => d
  end.

(** [sep.join(parts)]. *)
Definition join (sep : string) (parts : list string) : string :=
  String.concat sep parts.

(** [str(n)] for a non-negative [int]. *)
Definition of_nat (n : nat) : string :=
  NilZero.string_of_uint (Nat.to_uint n).

(** A template written line by line; every line is newline-terminated. *)
Definition unlines (ls : list string) : string :=
  fold_right (fun l acc => l ++ nl ++ acc) EmptyString ls.

(** [sub in s]. *)
Definition Contains (sub s : string) : Prop :=
  exists pre post, s = pre ++ sub ++ post.

(** Executable substring test, used to evaluate [sub in s] on concrete
    strings. *)
Fixpoint contains (sub s : string) : bool :=
  if String.prefix sub s then true
  else match s with
       | EmptyString => false
       | String _ s' => contains sub s'
       end.

End PyStr.

Import PyStr.

(** ** Project configuration ([app/models/domain.py]) *)

Record Persona : Type := mkPersona {
  persona_name : string;
  persona_description : string
}.

Record RepoModule : Type := mkRepoModule {
  module_name : string;
  module_path : string;
  module_description : string
}.

(** [standards] is a Python [dict]; iteration order is insertion order, so it
    is kept as an association list. *)
Record DomainConfig : Type := mkDomainConfig {
  project_name : string;
  repo_url : string;
  tech_stack : list string;
  architecture_notes : string;
  key_modules : list RepoModule;
  ticket_structure : list string;
  user_personas : list Persona;
  platforms : list string;
  standards : list (string * string);
  acceptance_criteria_style : string
}.

(** The field defaults of [DomainConfig]. *)
Definition default_domain_config : DomainConfig :=
  {| project_name := "My Product";
     repo_url := EmptyString;
     tech_stack := [];
     architecture_notes := EmptyString;
     key_modules := [];
     ticket_structure :=
       [ "Background";
         "Problem / Current behavior";
         "Desired behavior";
         "Scope";
         "Out of scope";
         "Technical notes (high level)";
         "Risks & impact";
         "Test plan / QA hints";
         "Acceptance criteria" ];
     user_personas := [];
     platforms := [];
     standards := [];
     acceptance_criteria_style := "bullet" |}.

(** ** JSON values

    Tool arguments (the result of [json.loads]) and tool input schemas are
    JSON values.  Numbers are restricted to integers. *)

#[local] Set Warnings "-register-all".

Inductive JSON : Type :=
| JNull
| JBool (b : bool)
| JNum (z : Z)
| JStr (s : string)
| JArr (items : list JSON)
| JObj (fields : list (string * JSON)).

(** [bool(v)] for a decoded JSON value. *)
Definition json_truthy (v : JSON) : bool :=
  match v with
  | JNull => false
  | JBool b => b
  | JNum z => negb (Z.eqb z 0)
  | JStr s => truthy s
  | JArr [] => false
  | JArr (_ :: _) => true
  | JObj [] => false
  | JObj (_ :: _) => true
  end.

(** ** Conversation messages

    The agent loop keeps the conversation as a list of dictionaries with the
    keys [role], [content] and, depending on the role, [tool_calls] or
    [tool_call_id].  An absent key is [None]. *)

Record FunctionDict : Type := mkFunctionDict {
  fn_name : string;
  fn_arguments : string
}.

Record ToolCallDict : Type := mkToolCallDict {
  tcd_id : string;
  tcd_type : string;
  tcd_function : FunctionDict
}.

Record Message : Type := mkMessage {
  role : string;
  content : string;
  tool_calls : option (list ToolCallDict);
  tool_call_id : option string
}.

(** ** Prompt builder ([app/llm/prompts.py]) *)

Module Prompts.

Definition AGENT_SYSTEM_FIRST_PASS : string :=
  unlines
    [ "You are a senior product analyst AI assistant that helps product managers refine rough Jira tickets into sprint-ready specifications.";
      EmptyString;
      "## Your tools";
      "You have access to Jira tools (via MCP) to read and write issue data. Use them to gather context and post your refinement output.";
      EmptyString;
      "## Your workflow (first_pass mode)";
      "1. **Read the issue** — use `jira_get_issue` to fetch the ticket data.";
      "2. **Search for similar tickets** — use `jira_search` with a JQL query    to find related or similar issues in the same project for style reference.";
      "3. **Analyze** — identify what information is missing or ambiguous.";
      "4. **Post your analysis** — use `jira_add_comment` to post a comment on the    issue with:";
      "   - 3–7 focused, numbered clarifying questions for the PM";
      "   - A draft specification following the required ticket structure";
      "   - Proposed acceptance criteria";
      "   - (Optional) suggested subtasks if the ticket is large";
      "5. **Update refinement state** — if a custom field for refinement state exists,    use `jira_update_issue` to set it to " ++ dq ++ "WAITING_FOR_PM" ++ dq ++ ".";
      EmptyString;
      "## Rules";
      "- Keep questions specific and actionable — don't ask vague questions.";
      "- The draft spec should be as complete as possible given the information.   Mark uncertain parts with " ++ dq ++ "[TBD — see question N]" ++ dq ++ ".";
      "- Acceptance criteria should be concrete and testable.";
      "- Write in clear, professional language.";
      "- Format the comment in markdown for readability.";
      EmptyString;
      "After you have completed ALL steps, respond with a brief summary of what you did." ].

Definition AGENT_SYSTEM_FEEDBACK : string :=
  unlines
    [ "You are a senior product analyst AI assistant. The PM has answered your clarifying questions and may have requested wording changes.";
      EmptyString;
      "## Your tools";
      "You have access to Jira tools (via MCP) to read and write issue data.";
      EmptyString;
      "## Your workflow (pm_feedback mode)";
      "1. **Read the issue** — use `jira_get_issue` to fetch the current ticket and comments.";
      "2. **Incorporate PM feedback** — use the PM's comment to refine the specification:";
      "   - Remove all " ++ dq ++ "[TBD]" ++ dq ++ " placeholders.";
      "   - Apply any wording changes the PM requested.";
      "   - Produce the final, complete specification.";
      "3. **Update the issue description** — use `jira_update_issue` to replace the description    with the final specification including acceptance criteria.";
      "4. **Create subtasks** — if the ticket warrants breakdown, use `jira_create_issue` to    create sub-tasks linked to the parent issue.";
      "5. **Post a summary comment** — use `jira_add_comment` to post a comment summarizing    what was updated. If anything is still unclear, include follow-up questions.";
      "6. **Update refinement state** — use `jira_update_issue` to set the refinement state:    " ++ dq ++ "COMPLETE" ++ dq ++ " if done, or " ++ dq ++ "WAITING_FOR_PM" ++ dq ++ " if follow-up questions remain.";
      EmptyString;
      "## Rules";
      "- Be concise but thorough.";
      "- Keep the same ticket structure template.";
      "- Format all content in markdown.";
      EmptyString;
      "After you have completed ALL steps, respond with a brief summary of what you did." ].

Definition NONE_DEFINED : string := "  (none defined)".

(** [_domain_context]: the optional repository sections are appended one
    by one under their guards, then the fixed block is appended. *)
Definition _domain_context (config : DomainConfig) : string :=
  let sections :=
    join nl (map (fun s => "  - " ++ s) (ticket_structure config)) in
  let personas :=
    join nl (map (fun p => "  - **" ++ persona_name p ++ "**: "
                             ++ persona_description p)
               (user_personas config)) in
  let platforms :=
    match platforms config with
    | [] => "N/A"
    | _ :: _ => join ", " (platforms config)
    end in
  let standards :=
    join nl (map (fun kv => "  - **" ++ fst kv ++ "**: " ++ snd kv)
               (standards config)) in
  let context :=
    nl ++ nl ++ "## Project context: " ++ project_name config ++ nl in
  let context :=
    if truthy (repo_url config)
    then context ++ nl ++ "### Repository: " ++ repo_url config ++ nl
    else context in
  let context :=
    match tech_stack config with
    | [] => context
    | _ :: _ =>
        let tech := join nl (map (fun t => "  - " ++ t) (tech_stack config)) in
        context ++ nl ++ "### Tech stack:" ++ nl ++ tech ++ nl
    end in
  let context :=
    if truthy (architecture_notes config)
    then context ++ nl ++ "### Architecture:" ++ nl
                 ++ architecture_notes config ++ nl
    else context in
  let context :=
    match key_modules config with
    | [] => context
    | _ :: _ =>
        let modules :=
          join nl (map (fun m => "  - **" ++ module_name m ++ "** (`"
                                   ++ module_path m ++ "`): "
                                   ++ module_description m)
                     (key_modules config)) in
        context ++ nl ++ "### Key modules:" ++ nl ++ modules ++ nl
    end in
  context
    ++ nl ++ "### Required ticket structure (use these as markdown headings):" ++ nl
    ++ sections ++ nl
    ++ nl ++ "### Known user personas:" ++ nl
    ++ or_else personas NONE_DEFINED ++ nl
    ++ nl ++ "### Target platforms: " ++ platforms ++ nl
    ++ nl ++ "### Non-functional standards:" ++ nl
    ++ or_else standards NONE_DEFINED ++ nl
    ++ nl ++ "### Acceptance criteria style: "
    ++ acceptance_criteria_style config ++ nl.

Definition NO_COMMENT : string := "(no comment provided)".

(** [build_agent_prompt]: any mode other than ["first_pass"] takes the
    feedback branch. *)
Definition build_agent_prompt (issue_key mode : string)
    (pm_comment : option string) (domain_config : DomainConfig)
  : list Message :=
  let '(system, user_content) :=
    if String.eqb mode "first_pass" then
      (AGENT_SYSTEM_FIRST_PASS ++ _domain_context domain_config,
       "Please refine Jira issue **" ++ issue_key ++ "**." ++ nl ++ nl
         ++ "Start by reading the issue with the `jira_get_issue` tool, "
         ++ "then follow the workflow described in your instructions.")
    else
      (AGENT_SYSTEM_FEEDBACK ++ _domain_context domain_config,
       "The PM has replied to the refinement of **" ++ issue_key ++ "**."
         ++ nl ++ nl
         ++ "**PM's comment:**" ++ nl ++ opt_or pm_comment NO_COMMENT
         ++ nl ++ nl
         ++ "Start by reading the issue with `jira_get_issue` to see the "
         ++ "current state, then incorporate the PM's feedback.") in
  [ {| role := "system"; content := system;
       tool_calls := None; tool_call_id := None |};
    {| role := "user"; content := user_content;
       tool_calls := None; tool_call_id := None |} ].

End Prompts.

(** ** Exceptions and effects

    Effectful code runs in a state-and-exception monad.  The state pairs the
    external world (the remote services) with the chronological trace of the
    gateway calls the program has made. *)

Record Exn : Type := mkExn {
  exn_type : string;
  exn_str : string      (* [str(e)] *)
}.

Definition RuntimeError (msg : string) : Exn :=
  {| exn_type := "RuntimeError"; exn_str := msg |}.

Definition AttributeError (msg : string) : Exn :=
  {| exn_type := "AttributeError"; exn_str := msg |}.

(** *** Chat completion objects ([openai]) and [app/llm/client.py] classes *)

Record ChatToolCall : Type := mkChatToolCall {
  ctc_id : string;
  ctc_function : FunctionDict
}.

Record ChatMessage : Type := mkChatMessage {
  cm_content : option string;
  cm_tool_calls : option (list ChatToolCall)
}.

Record ToolCall : Type := mkToolCall {
  tc_id : string;
  tc_name : string;
  tc_arguments : JSON
}.

Record LLMToolResponse : Type := mkLLMToolResponse {
  resp_tool_calls : option (list ToolCall);
  resp_final_text : option string;
  resp_assistant_message : option ChatMessage
}.

(** [bool(xs)] for a list that may be [None]. *)
Definition opt_list_truthy {A : Type} (o : option (list A)) : bool :=
  match o with
  | Some (_ :: _) => true
  | _ => false
  end.

Definition opt_list_items {A : Type} (o : option (list A)) : list A :=
  match o with
  | Some l => l
  | None => []
  end.

(** [LLMToolResponse.wants_tool_calls]. *)
Definition wants_tool_calls (r : LLMToolResponse) : bool :=
  opt_list_truthy (resp_tool_calls r).

(** *** Function-calling schema and MCP types *)

Record ToolFunction : Type := mkToolFunction {
  tf_name : string;
  tf_description : string;
  tf_parameters : JSON
}.

Record ToolDef : Type := mkToolDef {
  td_type : string;
  td_function : ToolFunction
}.

Record Tool : Type := mkTool {
  tool_name : string;
  tool_description : option string;
  inputSchema : option JSON
}.

Inductive ContentBlock : Type :=
| TextContent (text : string)
| ImageContent (data mimeType : string)
| EmbeddedResource (uri : string).

Record CallToolResult : Type := mkCallToolResult {
  result_content : list ContentBlock;
  isError : bool
}.

(** *** Trace of gateway calls *)

Inductive Event : Type :=
| EvLLM (messages : list Message) (tools : list ToolDef)
        (outcome : Exn + LLMToolResponse)
| EvTool (name : string) (arguments : JSON) (outcome : Exn + string)
| EvSession (name : string) (arguments : JSON).

Definition is_llm (e : Event) : bool :=
  match e with EvLLM _ _ _ => true | _ => false end.

Definition is_tool (e : Event) : bool :=
  match e with EvTool _ _ _ => true | _ => false end.

Definition is_session (e : Event) : bool :=
  match e with EvSession _ _ => true | _ => false end.

Definition llm_calls (tr : list Event) : nat := length (filter is_llm tr).
Definition tool_calls_made (tr : list Event) : nat := length (filter is_tool tr).
Definition session_calls (tr : list Event) : nat := length (filter is_session tr).

(** The tool invocations with their outcomes, in order. *)
Definition tool_outcomes (tr : list Event) : list (string * JSON * (Exn + string)) :=
  flat_map (fun e => match e with
                     | EvTool n a o => [(n, a, o)]
                     | _ => []
                     end) tr.

(** The [(name, arguments)] pairs of the tool invocations, in order. *)
Definition tool_invocations (tr : list Event) : list (string * JSON) :=
  flat_map (fun e => match e with
                     | EvTool n a _ => [(n, a)]
                     | _ => []
                     end) tr.

(** *** The monad *)

Section Effects.

Variable World : Type.

Record St : Type := mkSt {
  world : World;
  trace : list Event
}.

Definition M (A : Type) : Type := St -> St * (Exn + A).

Definition ret {A : Type} (a : A) : M A := fun st => (st, inr a).

Definition raise {A : Type} (e : Exn) : M A := fun st => (st, inl e).

Definition bind {A B : Type} (c : M A) (k : A -> M B) : M B :=
  fun st =>
    match c st with
    | (st1, inr a) => k a st1
    | (st1, inl e) => (st1, inl e)
    end.

(** [try: c  except Exception as e: h e]. *)
Definition try_except {A : Type} (c : M A) (h : Exn -> M A) : M A :=
  fun st =>
    match c st with
    | (st1, inr a) => (st1, inr a)
    | (st1, inl e) => h e st1
    end.

(** A call to an external service: a transition of the world. *)
Definition external {A : Type} (op : World -> World * (Exn + A)) : M A :=
  fun st =>
    let '(w, out) := op (world st) in
    ({| world := w; trace := trace st |}, out).

(** A pure computation that may raise. *)
Definition lift {A : Type} (r : Exn + A) : M A := fun st => (st, r).

Definition emit (ev : Event) : M unit :=
  fun st => ({| world := world st; trace := trace st ++ [ev] |}, inr tt).

(** Run [c] and record its outcome, raised or returned, in the trace. *)
Definition observed {A : Type} (mk : Exn + A -> Event) (c : M A) : M A :=
  fun st =>
    let '(st1, out) := c st in
    ({| world := world st1; trace := trace st1 ++ [mk out] |}, out).

End Effects.

Arguments mkSt {World}.
Arguments world {World}.
Arguments trace {World}.
Arguments ret {World A}.
Arguments raise {World A}.
Arguments bind {World A B}.
Arguments try_except {World A}.
Arguments external {World A}.
Arguments lift {World A}.
Arguments emit {World}.
Arguments observed {World A}.

Declare Scope py_scope.
Delimit Scope py_scope with py.
Notation "x <- c ;; k" := (bind c (fun x => k))
  (at level 100, c at next level, right associativity) : py_scope.
Notation "c ;;; k" := (bind c (fun _ => k))
  (at level 100, right associativity) : py_scope.

(** ** The program *)

Section Agent.

Variable World : Type.
Variable Session : Type.
Variable RawConfig : Type.

(** [_client.chat.completions.create(model, messages, tools, temperature)]
    followed by [.choices[0].message]. *)
Variable chat_completions_create :
  list Message -> option (list ToolDef) -> World -> World * (Exn + ChatMessage).

(** [json.loads]. *)
Variable json_loads : string -> Exn + JSON.

(** [ClientSession.call_tool(name, arguments=...)]. *)
Variable session_call_tool :
  Session -> string -> JSON -> World -> World * (Exn + CallToolResult).

(** [load_domain_config()] and [DomainConfig.model_validate(raw)]. *)
Variable load_domain_config : World -> World * (Exn + RawConfig).
Variable model_validate : RawConfig -> Exn + DomainConfig.

Local Open Scope py_scope.
Local Abbreviation M := (M World).

(** *** [app/llm/client.py] *)

(** The [for tc in message.tool_calls: calls.append(ToolCall(...))] loop. *)
Fixpoint decode_tool_calls (tcs : list ChatToolCall) : M (list ToolCall) :=
  match tcs with
  | [] => ret []
  | tc :: rest =>
      arguments <- lift (json_loads (fn_arguments (ctc_function tc))) ;;
      calls <- decode_tool_calls rest ;;
      ret ({| tc_id := ctc_id tc;
              tc_name := fn_name (ctc_function tc);
              tc_arguments := arguments |} :: calls)
  end.

(** A decoded call mirrors the raw one it was built from. *)
Definition decoded (tc : ChatToolCall) (c : ToolCall) : Prop :=
  tc_id c = ctc_id tc
  /\ tc_name c = fn_name (ctc_function tc)
  /\ json_loads (fn_arguments (ctc_function tc)) = inr (tc_arguments c).

Definition call_llm_with_tools (messages : list Message) (tools : list ToolDef)
  : M LLMToolResponse :=
  message <- external (chat_completions_create messages
                         (match tools with [] => None | _ :: _ => Some tools end)) ;;
  if opt_list_truthy (cm_tool_calls message) then
    calls <- decode_tool_calls (opt_list_items (cm_tool_calls message)) ;;
    ret {| resp_tool_calls := Some calls;
           resp_final_text := None;
           resp_assistant_message := Some message |}
  else
    ret {| resp_tool_calls := None;
           resp_final_text := Some (opt_or (cm_content message) EmptyString);
           resp_assistant_message := Some message |}.

(** *** [app/jira/mcp_client.py] *)

Record MCPJiraClient : Type := mkMCPJiraClient {
  _session : option Session;
  _tools : list Tool
}.

Definition is_connected (self : MCPJiraClient) : bool :=
  match _session self with Some _ => true | None => false end.

Definition DEFAULT_PARAMETERS : JSON :=
  JObj [("type", JStr "object"); ("properties", JObj [])].

Definition get_tools_as_openai_functions (self : MCPJiraClient) : list ToolDef :=
  map (fun tool =>
         {| td_type := "function";
            td_function :=
              {| tf_name := tool_name tool;
                 tf_description := opt_or (tool_description tool) EmptyString;
                 tf_parameters :=
                   match inputSchema tool with
                   | Some schema =>
                       if json_truthy schema then schema else DEFAULT_PARAMETERS
                   | None => DEFAULT_PARAMETERS
                   end |} |})
      (_tools self).

(** [_extract_text]: the text parts, newline-joined. *)
Definition _extract_text (result : CallToolResult) : string :=
  join nl (flat_map (fun c => match c with
                              | TextContent text => [text]
                              | _ => []
                              end) (result_content result)).

Definition NOT_CONNECTED : string :=
  "MCP client not connected. Call start() first.".

Definition call_tool (self : MCPJiraClient) (name : string) (arguments : JSON)
  : M string :=
  match _session self with
  | None => raise (RuntimeError NOT_CONNECTED)
  | Some session =>
      let arguments := if json_truthy arguments then arguments else JObj [] in
      emit (EvSession name arguments) ;;;
      result <- external (session_call_tool session name arguments) ;;
      if isError result then
        let error_text := _extract_text result in
        raise (RuntimeError ("MCP tool '" ++ name ++ "' failed: " ++ error_text))
      else
        ret (_extract_text result)
  end.

(** *** [app/services/refinement_service.py] *)

Definition MAX_AGENT_ITERATIONS : nat := 15.

Definition _assistant_message_to_dict (message : ChatMessage) : Message :=
  {| role := "assistant";
     content := opt_or (cm_content message) EmptyString;
     tool_calls :=
       if opt_list_truthy (cm_tool_calls message) then
         Some (map (fun tc =>
                      {| tcd_id := ctc_id tc;
                         tcd_type := "function";
                         tcd_function :=
                           {| fn_name := fn_name (ctc_function tc);
                              fn_arguments := fn_arguments (ctc_function tc) |} |})
                   (opt_list_items (cm_tool_calls message)))
       else None;
     tool_call_id := None |}.

Definition _get_domain_config : M DomainConfig :=
  raw <- external load_domain_config ;;
  lift (model_validate raw).

Definition tool_error (name : string) (e : Exn) : string :=
  "Error calling tool '" ++ name ++ "': " ++ exn_str e.

(** The value bound to [result] after the [try]/[except] around one tool
    invocation whose outcome was [o]. *)
Definition result_of (name : string) (o : Exn + string) : string :=
  match o with
  | inr text => text
  | inl e => tool_error name e
  end.

Definition tool_message (id result : string) : Message :=
  {| role := "tool"; content := result;
     tool_calls := None; tool_call_id := Some id |}.

(** The tool-result messages of one assistant turn whose requests [calls]
    had the outcomes [os], and the matching trace entries. *)
Definition turn_messages (calls : list ToolCall) (os : list (Exn + string))
  : list Message :=
  map (fun p => tool_message (tc_id (fst p)) (result_of (tc_name (fst p)) (snd p)))
      (combine calls os).

Definition turn_outcomes (calls : list ToolCall) (os : list (Exn + string))
  : list (string * JSON * (Exn + string)) :=
  map (fun p => (tc_name (fst p), tc_arguments (fst p), snd p)) (combine calls os).

Definition max_iterations_message (max_iterations : nat) (issue_key : string)
  : string :=
  "Agent reached maximum iterations (" ++ of_nat max_iterations ++ ") for "
    ++ issue_key ++ ".".

Section Loop.

(** The singleton [mcp_jira_client]. *)
Variable mcp_jira_client : MCPJiraClient.

(** The [try]/[except] around one tool invocation; the invocation and
    its outcome are recorded in the trace. *)
Definition invoke (tool_call : ToolCall) : M string :=
  try_except
    (observed (EvTool (tc_name tool_call) (tc_arguments tool_call))
       (call_tool mcp_jira_client (tc_name tool_call) (tc_arguments tool_call)))
    (fun e => ret (tool_error (tc_name tool_call) e)).

(** The inner [for tool_call in response.tool_calls] loop. *)
Fixpoint exec_tool_calls (calls : list ToolCall) (messages : list Message)
  : M (list Message) :=
  match calls with
  | [] => ret messages
  | tool_call :: rest =>
      result <- invoke tool_call ;;
      exec_tool_calls rest (messages ++ [tool_message (tc_id tool_call) result])%list
  end.

Variable max_iterations : nat.
Variable issue_key : string.
Variable tools : list ToolDef.

(** The outer [for iteration in range(MAX_AGENT_ITERATIONS)] loop with
    [n] iterations left, followed by the code after the loop. *)
Fixpoint agent_iterations (n : nat) (messages : list Message) : M string :=
  match n with
  | O => ret (max_iterations_message max_iterations issue_key)
  | S n' =>
      response <- observed (EvLLM messages tools)
                    (call_llm_with_tools messages tools) ;;
      if negb (wants_tool_calls response) then
        ret (opt_or (resp_final_text response) EmptyString)
      else
        match resp_assistant_message response with
        | None =>
            raise (AttributeError
                     "'NoneType' object has no attribute 'content'")
        | Some message =>
            let messages := (messages ++ [_assistant_message_to_dict message])%list in
            messages <- exec_tool_calls
                          (opt_list_items (resp_tool_calls response)) messages ;;
            agent_iterations n' messages
        end
  end.

End Loop.

(** *** Runs of the outer loop, as seen in the trace

    [Run n messages evs out]: started with [n] iterations left on the
    log [messages], the loop makes the gateway calls [evs] and ends with
    [out].  One constructor per way through the loop body. *)
Section Runs.

Variable max_iterations : nat.
Variable issue_key : string.
Variable tools : list ToolDef.

Inductive Run : nat -> list Message -> list Event -> Exn + string -> Prop :=
| Run_ceiling (messages : list Message) :
    Run 0 messages [] (inr (max_iterations_message max_iterations issue_key))
| Run_raise (n : nat) (messages : list Message) (e : Exn) :
    Run (S n) messages [EvLLM messages tools (inl e)] (inl e)
| Run_final (n : nat) (messages : list Message) (response : LLMToolResponse)
            (message : ChatMessage) :
    wants_tool_calls response = false ->
    resp_assistant_message response = Some message ->
    resp_final_text response = Some (opt_or (cm_content message) EmptyString) ->
    Run (S n) messages [EvLLM messages tools (inr response)]
        (inr (opt_or (resp_final_text response) EmptyString))
| Run_turn (n : nat) (messages : list Message) (response : LLMToolResponse)
           (message : ChatMessage) (calls : list ToolCall)
           (os : list (Exn + string)) (evs_turn evs_rest : list Event)
           (out : Exn + string) :
    wants_tool_calls response = true ->
    resp_assistant_message response = Some message ->
    resp_tool_calls response = Some calls ->
    Forall2 decoded (opt_list_items (cm_tool_calls message)) calls ->
    List.length os = List.length calls ->
    tool_outcomes evs_turn = turn_outcomes calls os ->
    llm_calls evs_turn = 0 ->
    Run n (messages ++ _assistant_message_to_dict message
             :: turn_messages calls os)%list evs_rest out ->
    Run (S n) messages
        (EvLLM messages tools (inr response) :: evs_turn ++ evs_rest)%list out.

End Runs.

(** [run_agent_loop] with the iteration ceiling as a parameter (the test
    suite patches the module constant). *)
Definition run_agent_loop_with (max_iterations : nat)
    (mcp_jira_client : MCPJiraClient)
    (issue_key mode : string) (pm_comment : option string) : M string :=
  domain_config <- _get_domain_config ;;
  let messages :=
    Prompts.build_agent_prompt issue_key mode pm_comment domain_config in
  let tools := get_tools_as_openai_functions mcp_jira_client in
  agent_iterations mcp_jira_client max_iterations issue_key tools
    max_iterations messages.

Definition run_agent_loop := run_agent_loop_with MAX_AGENT_ITERATIONS.

End Agent.

Arguments decode_tool_calls {World} json_loads tcs.
Arguments call_llm_with_tools {World} chat_completions_create json_loads
  messages tools.
Arguments mkMCPJiraClient {Session}.
Arguments _session {Session}.
Arguments _tools {Session}.
Arguments is_connected {Session}.
Arguments get_tools_as_openai_functions {Session}.
Arguments call_tool {World Session} session_call_tool self name arguments.
Arguments _get_domain_config {World RawConfig} load_domain_config model_validate.
Arguments invoke {World Session} session_call_tool mcp_jira_client tool_call.
Arguments exec_tool_calls {World Session} session_call_tool mcp_jira_client
  calls messages.
Arguments agent_iterations {World Session} chat_completions_create json_loads
  session_call_tool mcp_jira_client max_iterations issue_key tools n messages.
Arguments run_agent_loop_with {World Session RawConfig} chat_completions_create
  json_loads session_call_tool load_domain_config model_validate
  max_iterations mcp_jira_client issue_key mode pm_comment.
Arguments run_agent_loop {World Session RawConfig} chat_completions_create
  json_loads session_call_tool load_domain_config model_validate
  mcp_jira_client issue_key mode pm_comment.

(** ** Predicates on traces and message logs *)

(** The chat gateway call recorded by [ev] returned a response that
    requests tool calls. *)
Definition requests_tools (ev : Event) : Prop :=
  match ev with
  | EvLLM _ _ (inr response) => wants_tool_calls response = true
  | EvLLM _ _ (inl _) => False
  | _ => True
  end.

Definition requests_toolsb (ev : Event) : bool :=
  match ev with
  | EvLLM _ _ (inr response) => wants_tool_calls response
  | EvLLM _ _ (inl _) => false
  | _ => true
  end.

(** The message logs handed to the chat gateway, in order. *)
Definition logs_sent (tr : list Event) : list (list Message) :=
  flat_map (fun e => match e with
                     | EvLLM log _ _ => [log]
                     | _ => []
                     end) tr.




(** ** Test doubles

    The gateways used by [tests/test_agent_loop.py] and
    [tests/test_mcp_client.py], as transition functions.  The world counts
    the chat completions served so far. *)

Module Scenario.

Definition World : Type := nat.
Definition Session : Type := unit.
Definition RawConfig : Type := DomainConfig.

Definition StopAsyncIteration : Exn :=
  {| exn_type := "StopAsyncIteration"; exn_str := EmptyString |}.

Definition JSONDecodeError : Exn :=
  {| exn_type := "JSONDecodeError";
     exn_str := "Expecting value: line 1 column 1 (char 0)" |}.

(** A chat gateway that always gives the same answer. *)
Definition chat_always (m : ChatMessage)
  : list Message -> option (list ToolDef) -> World -> World * (Exn + ChatMessage) :=
  fun _ _ w => (S w, inr m).

(** A chat gateway that plays a script ([side_effect = [...]]). *)
Definition chat_script (script : list ChatMessage)
  : list Message -> option (list ToolDef) -> World -> World * (Exn + ChatMessage) :=
  fun _ _ w =>
    (S w, match nth_error script w with
          | Some m => inr m
          | None => inl StopAsyncIteration
          end).

(** A decoder given by a table of argument texts. *)
Fixpoint json_table (table : list (string * JSON)) (text : string) : Exn + JSON :=
  match table with
  | [] => inl JSONDecodeError
  | (k, v) :: rest => if String.eqb k text then inr v else json_table rest text
  end.

Definition session_returns (r : CallToolResult)
  : Session -> string -> JSON -> World -> World * (Exn + CallToolResult) :=
  fun _ _ _ w => (w, inr r).

Definition session_raises (e : Exn)
  : Session -> string -> JSON -> World -> World * (Exn + CallToolResult) :=
  fun _ _ _ w => (w, inl e).

Definition load_default : World -> World * (Exn + RawConfig) :=
  fun w => (w, inr default_domain_config).

Definition validate : RawConfig -> Exn + DomainConfig := inr.

Definition SEARCH_ARGS : string :=
  "{" ++ dq ++ "jql" ++ dq ++ ": " ++ dq ++ "project=PROJ" ++ dq ++ "}".

Definition ISSUE_ARGS : string :=
  "{" ++ dq ++ "issue_key" ++ dq ++ ": " ++ dq ++ "PROJ-1" ++ dq ++ "}".

(** An argument text cut off inside its first key, and what [json.loads]
    raises on it. *)
Definition TRUNCATED_ARGS : string := "{" ++ dq ++ "jql".

Definition UnterminatedString : Exn :=
  {| exn_type := "JSONDecodeError";
     exn_str := "Unterminated string starting at: line 1 column 2 (char 1)" |}.

(** [json.loads] on the texts of the scenarios; a text that is none of
    them is read as the empty text. *)
Definition json_loads (text : string) : Exn + JSON :=
  if String.eqb text TRUNCATED_ARGS then inl UnterminatedString
  else json_table [ (SEARCH_ARGS, JObj [("jql", JStr "project=PROJ")]);
                    (ISSUE_ARGS, JObj [("issue_key", JStr "PROJ-1")]) ] text.

Definition search_call : ChatToolCall :=
  {| ctc_id := "call_loop";
     ctc_function := {| fn_name := "jira_search"; fn_arguments := SEARCH_ARGS |} |}.

Definition issue_call : ChatToolCall :=
  {| ctc_id := "call_123";
     ctc_function := {| fn_name := "jira_get_issue"; fn_arguments := ISSUE_ARGS |} |}.

(** An assistant turn that requests one search. *)
Definition wants_search : ChatMessage :=
  {| cm_content := Some EmptyString; cm_tool_calls := Some [search_call] |}.

(** An assistant turn that requests an issue fetch and then a search. *)
Definition wants_two : ChatMessage :=
  {| cm_content := None; cm_tool_calls := Some [issue_call; search_call] |}.

Definition says (text : string) : ChatMessage :=
  {| cm_content := Some text; cm_tool_calls := None |}.

Definition ok_result : CallToolResult :=
  {| result_content := [TextContent "ok"]; isError := false |}.

Definition mixed_result : CallToolResult :=
  {| result_content :=
       [TextContent "PROJ-1"; ImageContent "iVBORw0KGgo=" "image/png";
        TextContent "Summary: Test"];
     isError := false |}.

Definition error_result : CallToolResult :=
  {| result_content := [TextContent "Issue does not exist"]; isError := true |}.

Definition get_issue_tool : Tool :=
  {| tool_name := "jira_get_issue";
     tool_description := Some "Get a Jira issue by key";
     inputSchema :=
       Some (JObj [("type", JStr "object");
                   ("properties",
                    JObj [("issue_key", JObj [("type", JStr "string")])]);
                   ("required", JArr [JStr "issue_key"])]) |}.

(** A tool whose input schema is the empty object. *)
Definition any_input_tool : Tool :=
  {| tool_name := "jira_get_all_projects";
     tool_description := None;
     inputSchema := Some (JObj []) |}.

Definition connected : MCPJiraClient Session :=
  {| _session := Some tt; _tools := [get_issue_tool] |}.

Definition disconnected : MCPJiraClient Session :=
  {| _session := None; _tools := [] |}.

Definition start : St World := {| world := 0; trace := [] |}.

(** The gateway keeps requesting a search and every search succeeds. *)
Definition runaway : St World * (Exn + string) :=
  run_agent_loop (chat_always wants_search) json_loads
    (session_returns ok_result) load_default validate
    connected "PROJ-1" "first_pass" None start.


(** One failing tool call, then a final answer. *)
Definition recovering : St World * (Exn + string) :=
  run_agent_loop (chat_script [wants_search; says "Could not find the issue."])
    json_loads (session_raises (RuntimeError "not found"))
    load_default validate connected "MISSING-1" "first_pass" None start.

(** An immediate final answer in [pm_feedback] mode. *)
Definition feedback : St World * (Exn + string) :=
  run_agent_loop (chat_always (says "Feedback incorporated.")) json_loads
    (session_returns ok_result) load_default validate
    connected "PROJ-2" "pm_feedback" (Some "Yes to all") start.

(** A turn with two requests, then a final answer. *)
Definition two_calls : St World * (Exn + string) :=
  run_agent_loop (chat_script [wants_two; says "Refined"]) json_loads
    (session_returns ok_result) load_default validate
    connected "PROJ-1" "first_pass" None start.

End Scenario.

(** ** The webhook dispatcher ([app/api/webhook.py]) and [handle_webhook] *)

(** The tool calls requested by the responses recorded in a trace, as
    [(name, arguments)] pairs, in order. *)
Definition requested (tr : list Event) : list (string * JSON) :=
  flat_map (fun e => match e with
                     | EvLLM _ _ (inr response) =>
                         map (fun tc => (tc_name tc, tc_arguments tc))
                             (opt_list_items (resp_tool_calls response))
                     | _ => []
                     end) tr.



Record WebhookPayload : Type := mkWebhookPayload {
  wp_issue_key : string;
  wp_mode : string;
  wp_pm_comment : option string
}.

Record HTTPException : Type := mkHTTPException {
  status_code : nat;
  detail : string
}.

Section Webhook.

Variable World : Type.
Variable Session : Type.
Variable RawConfig : Type.
Variable chat_completions_create :
  list Message -> option (list ToolDef) -> World -> World * (Exn + ChatMessage).
Variable json_loads : string -> Exn + JSON.
Variable session_call_tool :
  Session -> string -> JSON -> World -> World * (Exn + CallToolResult).
Variable load_domain_config : World -> World * (Exn + RawConfig).
Variable model_validate : RawConfig -> Exn + DomainConfig.

(** The singleton [mcp_jira_client]. *)
Variable mcp_jira_client : MCPJiraClient Session.

Local Open Scope py_scope.

(** [handle_webhook]: runs the agent loop and returns [None]. *)
Definition handle_webhook (payload : WebhookPayload) : M World unit :=
  _ <- run_agent_loop chat_completions_create json_loads session_call_tool
         load_domain_config model_validate mcp_jira_client
         (wp_issue_key payload) (wp_mode payload) (wp_pm_comment payload) ;;
  ret tt.

(** [_safe_handle]: the body of the background task. *)
Definition _safe_handle (payload : WebhookPayload) : M World unit :=
  try_except (handle_webhook payload) (fun _ => ret tt).

(** [jira_refine]: either the raised [HTTPException], or the task handed to
    [asyncio.create_task] together with the returned dictionary. *)
Definition jira_refine (payload : WebhookPayload)
  : HTTPException + (M World unit * list (string * string)) :=
  if negb (String.eqb (wp_mode payload) "first_pass"
           || String.eqb (wp_mode payload) "pm_feedback") then
    inl {| status_code := 422;
           detail := "Invalid mode '" ++ wp_mode payload
                       ++ "'. Must be 'first_pass' or 'pm_feedback'." |}
  else
    inr (_safe_handle payload,
         [("status", "accepted");
          ("issue", wp_issue_key payload);
          ("mode", wp_mode payload)]).

End Webhook.

Arguments handle_webhook {World Session RawConfig} chat_completions_create
  json_loads session_call_tool load_domain_config model_validate
  mcp_jira_client payload.
Arguments _safe_handle {World Session RawConfig} chat_completions_create
  json_loads session_call_tool load_domain_config model_validate
  mcp_jira_client payload.
Arguments jira_refine {World Session RawConfig} chat_completions_create
  json_loads session_call_tool load_domain_config model_validate
  mcp_jira_client payload.

(** ** The client's life cycle ([MCPJiraClient.start], [stop])

    The client is a mutable object; here the program state is the outside
    world paired with the object, so that what an operation has already
    assigned survives an exception. *)

Section Lifecycle.

Variable World : Type.
Variable Session : Type.
Variable Streams : Type.
Variable ExitStack : Type.

(** [AsyncExitStack()]. *)
Variable new_exit_stack : World -> World * ExitStack.

(** [exit_stack.enter_async_context(stdio_client(server_params))]. *)
Variable enter_stdio_client : ExitStack -> World -> World * (Exn + Streams).

(** [exit_stack.enter_async_context(ClientSession(read, write))]. *)
Variable enter_client_session :
  ExitStack -> Streams -> World -> World * (Exn + Session).

(** [session.initialize()] and [session.list_tools()] ([.tools]). *)
Variable session_initialize : Session -> World -> World * (Exn + unit).
Variable session_list_tools : Session -> World -> World * (Exn + list Tool).

(** [exit_stack.aclose()]. *)
Variable exit_stack_aclose : ExitStack -> World -> World * (Exn + unit).

Record ClientObject : Type := mkClientObject {
  obj_client : MCPJiraClient Session;
  _exit_stack : option ExitStack
}.

(** [MCPJiraClient()]. *)
Definition new_client : ClientObject :=
  {| obj_client := {| _session := None; _tools := [] |};
     _exit_stack := None |}.

Definition Process : Type := (World * ClientObject)%type.

Local Open Scope py_scope.

(** An operation of the outside world; the object is left alone. *)
Definition os {A : Type} (op : World -> World * (Exn + A)) : M Process A :=
  external (fun p => let '(w, r) := op (fst p) in ((w, snd p), r)).

Definition get_self : M Process ClientObject :=
  external (fun p => (p, inr (snd p))).

Definition set_exit_stack (v : option ExitStack) : M Process unit :=
  external (fun p => ((fst p, {| obj_client := obj_client (snd p);
                                 _exit_stack := v |}), inr tt)).

Definition set_session (v : option Session) : M Process unit :=
  external (fun p =>
              ((fst p, {| obj_client :=
                            {| _session := v;
                               _tools := _tools (obj_client (snd p)) |};
                          _exit_stack := _exit_stack (snd p) |}), inr tt)).

Definition set_tools (v : list Tool) : M Process unit :=
  external (fun p =>
              ((fst p, {| obj_client :=
                            {| _session := _session (obj_client (snd p));
                               _tools := v |};
                          _exit_stack := _exit_stack (snd p) |}), inr tt)).

Definition start : M Process unit :=
  stack <- os (fun w => let '(w1, stack) := new_exit_stack w in (w1, inr stack)) ;;
  set_exit_stack (Some stack) ;;;
  streams <- os (enter_stdio_client stack) ;;
  session <- os (enter_client_session stack streams) ;;
  set_session (Some session) ;;;
  os (session_initialize session) ;;;
  tools <- os (session_list_tools session) ;;
  set_tools tools.

Definition stop : M Process unit :=
  self <- get_self ;;
  match _exit_stack self with
  | Some stack =>
      os (exit_stack_aclose stack) ;;;
      set_session None ;;;
      set_exit_stack None
  | None => ret tt
  end.

(** The object of a process state. *)
Definition client_of (st : St Process) : ClientObject := snd (world st).

(** A session is only ever held together with the exit stack that owns it. *)
Definition session_owned (self : ClientObject) : Prop :=
  _exit_stack self = None -> _session (obj_client self) = None.

End Lifecycle.

Arguments mkClientObject {Session ExitStack}.
Arguments obj_client {Session ExitStack}.
Arguments _exit_stack {Session ExitStack}.
Arguments new_client {Session ExitStack}.
Arguments client_of {World Session ExitStack}.
Arguments session_owned {Session ExitStack}.
Arguments start {World Session Streams ExitStack} new_exit_stack
  enter_stdio_client enter_client_session session_initialize
  session_list_tools.
Arguments stop {World Session ExitStack} exit_stack_aclose.

(** ** [Settings.cors_origins_list] ([app/core/config.py])

    A Python [str] is a sequence of code points; the property splits and
    strips by code point, so here a string is a list over an arbitrary
    alphabet with its comma and its [str.isspace]. *)

Section Cors.

Variable Char : Type.
Variable is_comma : Char -> bool.
Variable isspace : Char -> bool.

(** [s.split(",")]. *)
Fixpoint split_commas (s : list Char) : list (list Char) :=
  match s with
  | [] => [[]]
  | c :: rest =>
      if is_comma c then [] :: split_commas rest
      else match split_commas rest with
           | piece :: pieces => (c :: piece) :: pieces
           | [] => [[c]]
           end
  end.

(** [s.lstrip()], [s.rstrip()] and [s.strip()]. *)
Fixpoint lstrip (s : list Char) : list Char :=
  match s with
  | [] => []
  | c :: rest => if isspace c then lstrip rest else s
  end.

Definition rstrip (s : list Char) : list Char := rev (lstrip (rev s)).

Definition strip (s : list Char) : list Char := rstrip (lstrip s).

(** [[o.strip() for o in self.CORS_ORIGINS.split(",") if o.strip()]]. *)
Definition cors_origins_list (CORS_ORIGINS : list Char) : list (list Char) :=
  map strip
      (filter (fun o => match strip o with [] => false | _ :: _ => true end)
              (split_commas CORS_ORIGINS)).

(** [",".join(pieces)]. *)
Fixpoint join_commas (comma : Char) (pieces : list (list Char)) : list Char :=
  match pieces with
  | [] => []
  | [piece] => piece
  | piece :: rest => (piece ++ comma :: join_commas comma rest)%list
  end.

(** An origin as the property returns them: not empty, no whitespace at
    either end, no comma. *)
Definition clean_origin (o : list Char) : Prop :=
  o <> []
  /\ (forall c rest, o = c :: rest -> isspace c = false)
  /\ (forall c front, o = (front ++ [c])%list -> isspace c = false)
  /\ Forall (fun c => is_comma c = false) o.

End Cors.

Arguments split_commas {Char} is_comma s.
Arguments lstrip {Char} isspace s.
Arguments rstrip {Char} isspace s.
Arguments strip {Char} isspace s.
Arguments cors_origins_list {Char} is_comma isspace CORS_ORIGINS.
Arguments join_commas {Char} comma pieces.
Arguments clean_origin {Char} is_comma isspace o.

(** ** The structured-output prompt builders ([app/llm/prompts.py])

    Ticket fields and similar tickets are dictionaries of Jira data; their
    values are modelled as [JSON] values, a dictionary as the association
    list of its items. *)

Definition TypeError (msg : string) : Exn :=
  {| exn_type := "TypeError"; exn_str := msg |}.

(** [type(v).__name__]. *)
Definition type_name (v : JSON) : string :=
  match v with
  | JNull => "NoneType"
  | JBool _ => "bool"
  | JNum _ => "int"
  | JStr _ => "str"
  | JArr _ => "list"
  | JObj _ => "dict"
  end.

Fixpoint dict_lookup (fields : list (string * JSON)) (key : string)
  : option JSON :=
  match fields with
  | [] => None
  | (k, v) :: rest => if String.eqb k key then Some v else dict_lookup rest key
  end.

(** [d.get(key, default)] on a dictionary. *)
Definition dict_get (fields : list (string * JSON)) (key : string)
    (default : JSON) : JSON :=
  match dict_lookup fields key with
  | Some v => v
  | None => default
  end.

(** [v.get(key, default)] on an arbitrary value: only a dictionary has the
    method. *)
Definition py_get (v : JSON) (key : string) (default : JSON) : Exn + JSON :=
  match v with
  | JObj fields => inr (dict_get fields key default)
  | _ => inl (AttributeError
                ("'" ++ type_name v ++ "' object has no attribute 'get'"))
  end.

Definition is_dict (v : JSON) : bool :=
  match v with JObj _ => true | _ => false end.

(** What [v.get] raises on a value that is no dictionary. *)
Definition no_attribute_get (v : JSON) : Exn :=
  AttributeError ("'" ++ type_name v ++ "' object has no attribute 'get'").

(** The first of the similar tickets read, [similar_tickets[:3]], that is
    no dictionary. *)
Definition first_non_dict (similar_tickets : list JSON) : option JSON :=
  find (fun t => negb (is_dict t)) (firstn 3 similar_tickets).

(** Sequencing of pure computations that may raise. *)
Definition and_then {A B : Type} (r : Exn + A) (k : A -> Exn + B) : Exn + B :=
  match r with
  | inl e => inl e
  | inr a => k a
  end.

Notation "x <~ r ;; k" := (and_then r (fun x => k))
  (at level 100, r at next level, right associativity) : py_scope.

(** The strings of a list handed to [str.join], which raises at the first
    item that is not a string; [i] is that item's index. *)
Fixpoint join_items (i : nat) (items : list JSON) : Exn + list string :=
  match items with
  | [] => inr []
  | JStr s :: rest =>
      match join_items (S i) rest with
      | inr l => inr (s :: l)
      | inl e => inl e
      end
  | v :: _ =>
      inl (TypeError ("sequence item " ++ of_nat i
                        ++ ": expected str instance, " ++ type_name v
                        ++ " found"))
  end.

Module StructuredPrompts.

Import Prompts.

Definition q (s : string) : string := dq ++ s ++ dq.

Definition SYSTEM_FIRST_PASS : string :=
  unlines
    [ "You are a senior product analyst AI assistant that helps product managers refine rough Jira tickets into sprint-ready specifications.";
      EmptyString;
      "## Your task";
      "Given a rough ticket and project context, you must:";
      "1. Identify what information is missing or ambiguous.";
      "2. Generate 3–7 focused, numbered clarifying questions for the PM.";
      "3. Draft a complete specification following the required ticket structure.";
      "4. Suggest acceptance criteria.";
      "5. Optionally suggest subtasks if the ticket is large.";
      EmptyString;
      "## Rules";
      "- Keep questions specific and actionable — don't ask vague questions.";
      "- The draft spec should be as complete as possible given the information available.   Mark uncertain parts with " ++ q "[TBD — see question N]" ++ ".";
      "- Acceptance criteria should be concrete and testable.";
      "- Write in clear, professional language.";
      "- Output ONLY valid JSON matching the schema below." ].

Definition SYSTEM_FEEDBACK : string :=
  unlines
    [ "You are a senior product analyst AI assistant. The PM has answered your clarifying questions and may have requested wording changes.";
      EmptyString;
      "## Your task";
      "1. Incorporate the PM's answers into the specification.";
      "2. Apply any wording changes the PM requested.";
      "3. Produce the final, complete specification following the required ticket structure.";
      "4. Produce final acceptance criteria.";
      "5. Decide whether subtasks should be created (set create_subtasks=true if so).";
      "6. If anything is still unclear, include follow-up questions.    If everything is clear, leave followup_questions empty.";
      EmptyString;
      "## Rules";
      "- Remove all " ++ q "[TBD]" ++ " placeholders — fill them in using the PM's answers.";
      "- Keep the same ticket structure template.";
      "- Be concise but thorough.";
      "- Output ONLY valid JSON matching the schema below." ].

(** [_json_schema_hint]: every mode other than ["first_pass"] gets the
    feedback schema. *)
Definition _json_schema_hint (mode : string) : string :=
  if String.eqb mode "first_pass" then
    unlines
      [ EmptyString;
        EmptyString;
        "## Required JSON output format";
        "```json";
        "{";
        "  " ++ q "questions" ++ ": [" ++ q "Question 1" ++ ", "
          ++ q "Question 2" ++ ", " ++ q "..." ++ "],";
        "  " ++ q "proposed_description" ++ ": "
          ++ q "Full markdown description..." ++ ",";
        "  " ++ q "proposed_acceptance_criteria" ++ ": [" ++ q "AC 1" ++ ", "
          ++ q "AC 2" ++ ", " ++ q "..." ++ "],";
        "  " ++ q "proposed_subtasks" ++ ": [";
        "    {" ++ q "summary" ++ ": " ++ q "Subtask title" ++ ", "
          ++ q "description" ++ ": " ++ q "Details" ++ "}";
        "  ]";
        "}";
        "```" ]
  else
    unlines
      [ EmptyString;
        EmptyString;
        "## Required JSON output format";
        "```json";
        "{";
        "  " ++ q "final_description_markdown" ++ ": "
          ++ q "Full markdown description..." ++ ",";
        "  " ++ q "final_acceptance_criteria" ++ ": [" ++ q "AC 1" ++ ", "
          ++ q "AC 2" ++ ", " ++ q "..." ++ "],";
        "  " ++ q "create_subtasks" ++ ": true,";
        "  " ++ q "subtasks" ++ ": [";
        "    {" ++ q "summary" ++ ": " ++ q "Subtask title" ++ ", "
          ++ q "description" ++ ": " ++ q "Details" ++ "}";
        "  ],";
        "  " ++ q "followup_questions" ++ ": ["
          ++ q "Any remaining question, or empty list" ++ "]";
        "}";
        "```" ].

Section Builders.

(** [repr] of a list or dictionary, and the characters of a string. *)
Variable py_repr : JSON -> string.
Variable characters : string -> list string.

Local Open Scope py_scope.

(** [str(v)], as an f-string formats a value. *)
Definition py_str (v : JSON) : string :=
  match v with
  | JNull => "None"
  | JBool true => "True"
  | JBool false => "False"
  | JNum z => NilZero.string_of_int (Z.to_int z)
  | JStr s => s
  | JArr _ => py_repr v
  | JObj _ => py_repr v
  end.

(** [sep.join(v)] on an arbitrary value. *)
Definition py_join (sep : string) (v : JSON) : Exn + string :=
  match v with
  | JArr items => l <~ join_items 0 items ;; inr (join sep l)
  | JObj fields => inr (join sep (map fst fields))
  | JStr s => inr (join sep (characters s))
  | _ => inl (TypeError "can only join an iterable")
  end.

(** The body of [for i, t in enumerate(tickets, i): user_content += ...]. *)
Fixpoint render_examples (i : nat) (tickets : list JSON) : Exn + string :=
  match tickets with
  | [] => inr EmptyString
  | t :: rest =>
      summary <~ py_get t "summary" (JStr EmptyString) ;;
      description <~ py_get t "description" (JStr EmptyString) ;;
      more <~ render_examples (S i) rest ;;
      inr ("### Example " ++ of_nat i ++ ": " ++ py_str summary ++ nl
             ++ py_str description ++ nl ++ nl ++ more)
  end.

(** The [if similar_tickets:] block shared by both builders. *)
Definition similar_section (similar_tickets : list JSON) : Exn + string :=
  match similar_tickets with
  | [] => inr EmptyString
  | _ :: _ =>
      examples <~ render_examples 1 (firstn 3 similar_tickets) ;;
      inr (nl ++ "## Similar past tickets (for style reference)" ++ nl ++ nl
              ++ examples)
  end.

Definition prompt_messages (system user_content : string) : list Message :=
  [ {| role := "system"; content := system;
       tool_calls := None; tool_call_id := None |};
    {| role := "user"; content := user_content;
       tool_calls := None; tool_call_id := None |} ].

Definition build_first_pass_prompt (ticket_fields : list (string * JSON))
    (similar_tickets : list JSON) (domain_config : DomainConfig)
  : Exn + list Message :=
  let system := SYSTEM_FIRST_PASS ++ _domain_context domain_config
                  ++ _json_schema_hint "first_pass" in
  let summary := dict_get ticket_fields "summary" (JStr "N/A") in
  let description :=
    dict_get ticket_fields "description" (JStr "(no description provided)") in
  issuetype <~ py_get (dict_get ticket_fields "issuetype" (JObj []))
                 "name" (JStr "N/A") ;;
  priority <~ py_get (dict_get ticket_fields "priority" (JObj []))
                "name" (JStr "N/A") ;;
  labels <~ py_join ", " (dict_get ticket_fields "labels" (JArr [])) ;;
  let user_content :=
    "## Ticket to refine" ++ nl ++ nl
      ++ "**Summary:** " ++ py_str summary ++ nl ++ nl
      ++ "**Description:**" ++ nl ++ py_str description ++ nl ++ nl
      ++ "**Type:** " ++ py_str issuetype ++ nl
      ++ "**Priority:** " ++ py_str priority ++ nl
      ++ "**Labels:** " ++ or_else labels "none" ++ nl in
  similar <~ similar_section similar_tickets ;;
  inr (prompt_messages system (user_content ++ similar)).

Definition build_feedback_prompt (original_description : option string)
    (previous_spec pm_comment : string) (similar_tickets : list JSON)
    (domain_config : DomainConfig) : Exn + list Message :=
  let system := SYSTEM_FEEDBACK ++ _domain_context domain_config
                  ++ _json_schema_hint "feedback" in
  let user_content :=
    "## Original rough description" ++ nl
      ++ opt_or original_description "(none)" ++ nl ++ nl
      ++ "## Previously proposed specification" ++ nl
      ++ previous_spec ++ nl ++ nl
      ++ "## PM's response" ++ nl
      ++ pm_comment ++ nl in
  similar <~ similar_section similar_tickets ;;
  inr (prompt_messages system (user_content ++ similar)).

End Builders.

End StructuredPrompts.

(** ** Further test doubles *)

Module Cases.

(** An assistant turn whose second tool call carries a truncated argument
    text. *)
Definition garbled : ChatMessage :=
  {| cm_content := None;
     cm_tool_calls :=
       Some [ Scenario.issue_call;
              {| ctc_id := "call_bad";
                 ctc_function := {| fn_name := "jira_search";
                                    fn_arguments := Scenario.TRUNCATED_ARGS |} |} ] |}.




Definition first_pass_payload : WebhookPayload :=
  {| wp_issue_key := "PROJ-1"; wp_mode := "first_pass"; wp_pm_comment := None |}.

Definition invalid_payload : WebhookPayload :=
  {| wp_issue_key := "PROJ-1"; wp_mode := "invalid_mode";
     wp_pm_comment := None |}.

(** A server subprocess over a world that counts the operations performed
    on it; stack, streams and session carry no data. *)
Definition tick {A : Type} (a : A) (w : nat) : nat * (Exn + A) := (S w, inr a).

Definition boot_stack (w : nat) : nat * unit := (S w, tt).
Definition boot_stdio (_ : unit) : nat -> nat * (Exn + unit) := tick tt.
Definition boot_session (_ _ : unit) : nat -> nat * (Exn + unit) := tick tt.
Definition boot_initialize (_ : unit) : nat -> nat * (Exn + unit) := tick tt.
Definition boot_list_tools (_ : unit) : nat -> nat * (Exn + list Tool) :=
  tick [Scenario.get_issue_tool; Scenario.any_input_tool].
Definition close_ok (_ : unit) : nat -> nat * (Exn + unit) := tick tt.

(** The handshake with the server fails. *)
Definition initialize_fails (_ : unit) (w : nat) : nat * (Exn + unit) :=
  (S w, inl (RuntimeError "handshake failed")).

Definition fresh : St (nat * ClientObject unit unit) :=
  {| world := (0, new_client); trace := [] |}.

Definition booted : St (nat * ClientObject unit unit) * (Exn + unit) :=
  start boot_stack boot_stdio boot_session boot_initialize boot_list_tools
    fresh.

Definition half_started : St (nat * ClientObject unit unit) * (Exn + unit) :=
  start boot_stack boot_stdio boot_session initialize_fails boot_list_tools
    fresh.

Definition shut_down : St (nat * ClientObject unit unit) * (Exn + unit) :=
  stop close_ok (fst booted).

(** ASCII text: the comma, and [str.isspace] on the ASCII range. *)
Definition ascii_comma (c : ascii) : bool := Ascii.eqb c ","%char.

Definition ascii_isspace (c : ascii) : bool :=
  let n := nat_of_ascii c in
  (((9 <=? n) && (n <=? 13)) || ((28 <=? n) && (n <=? 32)))%nat.

(** The characters of an ASCII text, and a [repr] for examples that hold
    no list and no dictionary to print. *)
Definition ascii_characters (s : string) : list string :=
  map (fun c => String c EmptyString) (list_ascii_of_string s).

Definition no_repr (_ : JSON) : string := EmptyString.

(** A ticket as Jira returns it when no priority is set. *)
Definition unprioritised : list (string * JSON) :=
  [ ("summary", JStr "Add dark mode");
    ("issuetype", JObj [("name", JStr "Story")]);
    ("priority", JNull);
    ("labels", JArr [JStr "ui"; JStr "theme"]) ].

Definition prioritised : list (string * JSON) :=
  [ ("summary", JStr "Add dark mode");
    ("issuetype", JObj [("name", JStr "Story")]);
    ("priority", JObj [("name", JStr "High")]);
    ("labels", JArr [JStr "ui"; JStr "theme"]) ].

(** Four similar tickets, the last of which is malformed. *)
Definition four_similar : list JSON :=
  [ JObj [("summary", JStr "Add light mode");
          ("description", JStr "As a user I want a light theme.")];
    JObj [("summary", JStr "Theme switcher")];
    JObj [];
    JNull ].

Definition origins_setting : list ascii :=
  list_ascii_of_string
    " http://localhost:3000 , ,https://jira.example.com,".

End Cases.

(** * Properties *)

(** ** Strings *)

Section StringFacts.

Lemma append_assoc (a b c : string) : (a ++ b) ++ c = a ++ (b ++ c).
Proof.
  induction a as [|ch a IH]; simpl; [reflexivity | now rewrite IH].
Qed.

Lemma append_nil_r (a : string) : a ++ EmptyString = a.
Proof.
  induction a as [|ch a IH]; simpl; [reflexivity | now rewrite IH].
Qed.

Lemma Contains_refl (s : string) : Contains s s.
Proof.
  exists EmptyString, EmptyString. simpl. now rewrite append_nil_r.
Qed.

Lemma Contains_empty (s : string) : Contains EmptyString s.
Proof. exists EmptyString, s. reflexivity. Qed.

Lemma Contains_app_r (sub p s : string) :
  Contains sub s -> Contains sub (p ++ s).
Proof.
  intros (pre & post & ->). exists (p ++ pre), post.
  now rewrite append_assoc.
Qed.

Lemma Contains_app_l (sub s q : string) :
  Contains sub s -> Contains sub (s ++ q).
Proof.
  intros (pre & post & ->). exists pre, (post ++ q).
  now rewrite !append_assoc.
Qed.

Lemma Contains_head (sub q : string) : Contains sub (sub ++ q).
Proof. apply Contains_app_l, Contains_refl. Qed.

Lemma prefix_split (sub s : string) :
  String.prefix sub s = true -> exists post, s = sub ++ post.
Proof.
  revert s. induction sub as [|c sub IH]; intros s H.
  - exists s. reflexivity.
  - destruct s as [|d s]; simpl in H; [discriminate|].
    destruct (ascii_dec c d) as [->|]; [|discriminate].
    destruct (IH s H) as [post ->]. exists post. reflexivity.
Qed.

Lemma contains_sound (sub s : string) :
  contains sub s = true -> Contains sub s.
Proof.
  induction s as [|c s IH]; cbn [contains]; intros H.
  - destruct (String.prefix sub EmptyString) eqn:P; [|discriminate H].
    destruct (prefix_split _ _ P) as [post E]. rewrite E. apply Contains_head.
  - destruct (String.prefix sub (String c s)) eqn:P.
    + destruct (prefix_split _ _ P) as [post E]. rewrite E. apply Contains_head.
    + apply (Contains_app_r sub (String c EmptyString) s). auto.
Qed.

Lemma or_else_cases (s d : string) :
  (s = EmptyString /\ or_else s d = d) \/ (s <> EmptyString /\ or_else s d = s).
Proof.
  destruct s; [left | right]; split; try reflexivity; discriminate.
Qed.

Lemma Contains_or_else (s d : string) : Contains s (or_else s d).
Proof.
  destruct s; [apply Contains_empty | apply Contains_refl].
Qed.

End StringFacts.

Create HintDb strs.

#[local] Hint Resolve Contains_refl Contains_empty Contains_app_r
  Contains_app_l Contains_head Contains_or_else : strs.

(** ** Prompt builder *)

Section PromptFacts.

Import Prompts.

(** C9.  For every issue key, mode, optional PM comment and project
    configuration, [build_agent_prompt] is a total function (it touches no
    state and cannot raise) whose value is a list of exactly two messages:
    a [system] message followed by a [user] message, neither carrying tool
    calls nor a tool-call id. *)
Theorem build_agent_prompt_shape :
  forall (issue_key mode : string) (pm_comment : option string)
         (config : DomainConfig),
  exists system user,
    build_agent_prompt issue_key mode pm_comment config = [system; user]
    /\ List.length (build_agent_prompt issue_key mode pm_comment config) = 2
    /\ role system = "system" /\ role user = "user"
    /\ tool_calls system = None /\ tool_calls user = None
    /\ tool_call_id system = None /\ tool_call_id user = None.
Proof.
  intros issue_key mode pm_comment config. unfold build_agent_prompt.
  destruct (String.eqb mode "first_pass");
    eexists; eexists; repeat split; reflexivity.
Qed.

End PromptFacts.

(** ** Traces *)

Section TraceFacts.

Lemma llm_calls_app (a b : list Event) :
  llm_calls (a ++ b) = llm_calls a + llm_calls b.
Proof. unfold llm_calls. now rewrite filter_app, length_app. Qed.


Lemma session_calls_app (a b : list Event) :
  session_calls (a ++ b) = session_calls a + session_calls b.
Proof. unfold session_calls. now rewrite filter_app, length_app. Qed.

Lemma tool_outcomes_app (a b : list Event) :
  tool_outcomes (a ++ b) = (tool_outcomes a ++ tool_outcomes b)%list.
Proof. unfold tool_outcomes. apply flat_map_app. Qed.

Lemma tool_invocations_app (a b : list Event) :
  tool_invocations (a ++ b) = (tool_invocations a ++ tool_invocations b)%list.
Proof. unfold tool_invocations. apply flat_map_app. Qed.

Lemma tool_invocations_outcomes (tr : list Event) :
  tool_invocations tr = map fst (tool_outcomes tr).
Proof.
  induction tr as [|ev tr IH]; [reflexivity|].
  destruct ev; simpl; try assumption. now rewrite IH.
Qed.

Lemma tool_calls_made_outcomes (tr : list Event) :
  tool_calls_made tr = List.length (tool_outcomes tr).
Proof.
  unfold tool_calls_made.
  induction tr as [|ev tr IH]; [reflexivity|].
  destruct ev; simpl; try assumption. now rewrite IH.
Qed.

End TraceFacts.

(** ** Message logs *)

Section LogFacts.



Lemma turn_outcomes_requests (calls : list ToolCall) :
  forall os : list (Exn + string),
    List.length os = List.length calls ->
    map fst (turn_outcomes calls os)
    = map (fun tc => (tc_name tc, tc_arguments tc)) calls.
Proof.
  unfold turn_outcomes.
  induction calls as [|tc calls IH]; intros [|o os] L; try discriminate L.
  - reflexivity.
  - simpl. f_equal. apply IH. now injection L.
Qed.

Lemma turn_messages_length (calls : list ToolCall) (os : list (Exn + string)) :
  List.length os = List.length calls ->
  List.length (turn_messages calls os) = List.length calls.
Proof.
  intros L. unfold turn_messages. rewrite length_map, length_combine. lia.
Qed.



End LogFacts.

(** ** The chat gateway wrapper, the tool gateway client and the loop *)

Section AgentFacts.

Context {World Session RawConfig : Type}.
Variable chat_completions_create :
  list Message -> option (list ToolDef) -> World -> World * (Exn + ChatMessage).
Variable json_loads : string -> Exn + JSON.
Variable session_call_tool :
  Session -> string -> JSON -> World -> World * (Exn + CallToolResult).
Variable load_domain_config : World -> World * (Exn + RawConfig).
Variable model_validate : RawConfig -> Exn + DomainConfig.

Local Abbreviation call_llm :=
  (call_llm_with_tools chat_completions_create json_loads).
Local Abbreviation tool := (call_tool session_call_tool).
Local Abbreviation exec := (exec_tool_calls session_call_tool).
Local Abbreviation iterations :=
  (agent_iterations chat_completions_create json_loads session_call_tool).
Local Abbreviation run_with :=
  (run_agent_loop_with chat_completions_create json_loads session_call_tool
     load_domain_config model_validate).
Local Abbreviation run :=
  (run_agent_loop chat_completions_create json_loads session_call_tool
     load_domain_config model_validate).

Lemma decode_tool_calls_state (tcs : list ChatToolCall) (st : St World) :
  fst (decode_tool_calls json_loads tcs st) = st.
Proof.
  revert st. induction tcs as [|tc tcs IH]; intros st; simpl; [reflexivity|].
  unfold bind, lift.
  destruct (json_loads (fn_arguments (ctc_function tc))) as [e|a];
    [reflexivity|].
  specialize (IH st).
  destruct (decode_tool_calls json_loads tcs st) as [st1 [e|calls]];
    simpl in *; assumption.
Qed.

Lemma decode_tool_calls_inv (tcs : list ChatToolCall) (st st' : St World)
    (calls : list ToolCall) :
  decode_tool_calls json_loads tcs st = (st', inr calls) ->
  Forall2 (decoded json_loads) tcs calls.
Proof.
  revert st' calls. induction tcs as [|tc tcs IH]; intros st' calls; simpl.
  - unfold ret. intros [= _ <-]. constructor.
  - unfold bind, lift, ret.
    destruct (json_loads (fn_arguments (ctc_function tc))) as [e|a] eqn:J;
      [discriminate|].
    destruct (decode_tool_calls json_loads tcs st) as [st1 [e|cs]] eqn:D;
      [discriminate|].
    intros [= _ <-]. constructor.
    + repeat split; simpl; auto.
    + apply (IH st1 cs eq_refl).
Qed.

(** The wrapper reaches the chat service exactly once and leaves the
    trace alone; what it returns is one of the two response shapes. *)
Lemma call_llm_trace (messages : list Message) (tools : list ToolDef)
    (st : St World) :
  trace (fst (call_llm messages tools st)) = trace st.
Proof.
  unfold call_llm_with_tools, bind, external, ret.
  destruct (chat_completions_create _ _ (world st)) as [w [e|message]];
    [reflexivity|].
  destruct (opt_list_truthy (cm_tool_calls message)); [|reflexivity].
  match goal with
  | |- context [decode_tool_calls json_loads ?l ?s] =>
      pose proof (decode_tool_calls_state l s) as E;
      destruct (decode_tool_calls json_loads l s) as [s1 [e|calls]]
  end; simpl in *; subst; reflexivity.
Qed.

Lemma call_llm_inv (messages : list Message) (tools : list ToolDef)
    (st st1 : St World) (response : LLMToolResponse) :
  call_llm messages tools st = (st1, inr response) ->
  exists message,
    resp_assistant_message response = Some message
    /\ wants_tool_calls response = opt_list_truthy (cm_tool_calls message)
    /\ (wants_tool_calls response = true ->
        exists calls,
          resp_tool_calls response = Some calls
          /\ Forall2 (decoded json_loads) (opt_list_items (cm_tool_calls message)) calls)
    /\ (wants_tool_calls response = false ->
        resp_final_text response
        = Some (opt_or (cm_content message) EmptyString)).
Proof.
  unfold call_llm_with_tools, bind, external, ret.
  destruct (chat_completions_create _ _ (world st)) as [w [e|message]];
    [discriminate|].
  destruct (opt_list_truthy (cm_tool_calls message)) eqn:T.
  - match goal with
    | |- context [decode_tool_calls json_loads ?l ?s] =>
        destruct (decode_tool_calls json_loads l s) as [s1 [e|calls]] eqn:D
    end; [discriminate|].
    intros [= _ <-]. exists message. unfold wants_tool_calls.
    cbn [resp_assistant_message resp_tool_calls resp_final_text].
    pose proof (decode_tool_calls_inv _ _ _ _ D) as F.
    assert (opt_list_truthy (Some calls) = true) as W.
    { destruct (cm_tool_calls message) as [[|tc tcs]|]; try discriminate.
      inversion F; reflexivity. }
    rewrite W, T. split; [reflexivity|]. split; [reflexivity|].
    split; [intros _; eauto | discriminate].
  - intros [= _ <-]. exists message. unfold wants_tool_calls.
    cbn [resp_assistant_message resp_tool_calls resp_final_text opt_list_truthy].
    rewrite T. split; [reflexivity|]. split; [reflexivity|].
    split; [discriminate | reflexivity].
Qed.

(** *** [call_tool] *)

Lemma call_tool_disconnected (self : MCPJiraClient Session)
    (name : string) (arguments : JSON) (st : St World) :
  _session self = None ->
  tool self name arguments st = (st, inl (RuntimeError NOT_CONNECTED)).
Proof. intros H. unfold call_tool. rewrite H. reflexivity. Qed.

Lemma call_tool_connected (self : MCPJiraClient Session) (session : Session)
    (name : string) (arguments : JSON) (st : St World) :
  _session self = Some session ->
  let sent := if json_truthy arguments then arguments else JObj [] in
  let '(w, out) := session_call_tool session name sent (world st) in
  tool self name arguments st
  = ({| world := w; trace := trace st ++ [EvSession name sent] |},
     match out with
     | inl e => inl e
     | inr result =>
         if isError result
         then inl (RuntimeError ("MCP tool '" ++ name ++ "' failed: "
                                   ++ _extract_text result))
         else inr (_extract_text result)
     end).
Proof.
  intros H sent. unfold call_tool. rewrite H. fold sent.
  unfold bind, emit, external, raise, ret. simpl.
  destruct (session_call_tool session name sent (world st)) as [w [e|result]];
    [reflexivity|].
  destruct (isError result); reflexivity.
Qed.

Lemma call_tool_trace (self : MCPJiraClient Session)
    (name : string) (arguments : JSON) (st : St World) :
  exists evs,
    trace (fst (tool self name arguments st)) = (trace st ++ evs)%list
    /\ Forall (fun ev => is_session ev = true) evs.
Proof.
  destruct (_session self) as [session|] eqn:S.
  - pose proof (call_tool_connected self session name arguments st S) as H.
    cbv zeta in H.
    destruct (session_call_tool session name _ (world st)) as [w out].
    rewrite H. simpl. eexists; split; [reflexivity|]. repeat constructor.
  - rewrite (call_tool_disconnected self name arguments st S). simpl.
    exists []. rewrite app_nil_r. split; constructor.
Qed.

(** *** One tool request *)

Section LoopFacts.

Variable mcp_jira_client : MCPJiraClient Session.

Lemma invoke_spec (tool_call : ToolCall) (st : St World) :
  let '(st0, o) :=
    tool mcp_jira_client (tc_name tool_call) (tc_arguments tool_call) st in
  invoke session_call_tool mcp_jira_client tool_call st
  = ({| world := world st0;
        trace := trace st0
                   ++ [EvTool (tc_name tool_call) (tc_arguments tool_call) o] |},
     inr (result_of (tc_name tool_call) o)).
Proof.
  unfold invoke, try_except, observed.
  destruct (tool mcp_jira_client _ _ st) as [st0 [e|r]]; reflexivity.
Qed.

Lemma sessions_only (evs : list Event) :
  Forall (fun ev => is_session ev = true) evs ->
  tool_outcomes evs = [] /\ llm_calls evs = 0.
Proof.
  induction 1 as [|ev evs H _ [IH1 IH2]]; [split; reflexivity|].
  destruct ev; try discriminate H. split; assumption.
Qed.

(** The inner loop never raises: it answers every request with one
    tool message, in request order. *)
Lemma exec_spec (calls : list ToolCall) :
  forall (messages : list Message) (st : St World),
  exists st' os evs,
    exec mcp_jira_client calls messages st
    = (st', inr (messages ++ turn_messages calls os)%list)
    /\ List.length os = List.length calls
    /\ trace st' = (trace st ++ evs)%list
    /\ tool_outcomes evs = turn_outcomes calls os
    /\ llm_calls evs = 0.
Proof.
  induction calls as [|tc rest IH]; intros messages st.
  - exists st, [], []. simpl. unfold ret, turn_messages. simpl.
    rewrite !app_nil_r. repeat split; reflexivity.
  - cbn [exec_tool_calls]. unfold bind.
    pose proof (invoke_spec tc st) as I.
    destruct (call_tool_trace mcp_jira_client (tc_name tc) (tc_arguments tc) st)
      as (evs0 & T0 & S0).
    destruct (tool mcp_jira_client (tc_name tc) (tc_arguments tc) st)
      as [st0 o].
    rewrite I. simpl in T0.
    destruct (IH (messages ++ [tool_message (tc_id tc) (result_of (tc_name tc) o)])%list
                 {| world := world st0;
                    trace := trace st0
                               ++ [EvTool (tc_name tc) (tc_arguments tc) o] |})
      as (st' & os & evs & E & L & T & O & C).
    exists st', (o :: os),
      (evs0 ++ EvTool (tc_name tc) (tc_arguments tc) o :: evs)%list.
    destruct (sessions_only evs0 S0) as [O0 C0].
    repeat split.
    + rewrite E. unfold turn_messages. simpl.
      now rewrite <- app_assoc.
    + simpl. now rewrite L.
    + rewrite T. simpl. rewrite T0. rewrite <- !app_assoc. reflexivity.
    + rewrite tool_outcomes_app, O0. simpl. rewrite O. reflexivity.
    + rewrite llm_calls_app, C0. unfold llm_calls in *. simpl. exact C.
Qed.

Variable max_iterations : nat.
Variable issue_key : string.
Variable tools : list ToolDef.

Local Abbreviation loop :=
  (iterations mcp_jira_client max_iterations issue_key tools).

(** One iteration of the outer loop, spelled out on the state. *)
Lemma loop_step (n : nat) (messages : list Message) (st : St World) :
  loop (S n) messages st
  = let '(st1, out) := call_llm messages tools st in
    let st1' := {| world := world st1;
                   trace := trace st1 ++ [EvLLM messages tools out] |} in
    match out with
    | inl e => (st1', inl e)
    | inr response =>
        if wants_tool_calls response then
          match resp_assistant_message response with
          | None =>
              (st1', inl (AttributeError
                            "'NoneType' object has no attribute 'content'"))
          | Some message =>
              match exec mcp_jira_client
                      (opt_list_items (resp_tool_calls response))
                      (messages ++ [_assistant_message_to_dict message])%list
                      st1' with
              | (st2, inr messages2) => loop n messages2 st2
              | (st2, inl e) => (st2, inl e)
              end
          end
        else (st1', inr (opt_or (resp_final_text response) EmptyString))
    end.
Proof.
  cbn [agent_iterations]. unfold bind, observed, ret, raise.
  destruct (call_llm messages tools st) as [st1 [e|response]];
    [reflexivity|].
  destruct (wants_tool_calls response); cbn [negb]; [|reflexivity].
  destruct (resp_assistant_message response); reflexivity.
Qed.

(** Every execution of the outer loop is a [Run]: it returns, and what
    it adds to the trace is the run's events. *)
Lemma iterations_run (n : nat) :
  forall (messages : list Message) (st : St World),
  exists evs,
    trace (fst (loop n messages st)) = (trace st ++ evs)%list
    /\ Run json_loads max_iterations issue_key tools n messages evs
           (snd (loop n messages st)).
Proof.
  induction n as [|n IH]; intros messages st.
  - exists []. simpl. rewrite app_nil_r. split; [reflexivity|constructor].
  - rewrite loop_step.
    pose proof (call_llm_trace messages tools st) as T1.
    destruct (call_llm messages tools st) as [st1 [e|response]] eqn:L;
      cbv zeta; simpl in T1.
    + exists [EvLLM messages tools (inl e)]. simpl. rewrite T1.
      split; [reflexivity|constructor].
    + destruct (call_llm_inv _ _ _ _ _ L) as (message & A & W & Wt & Wf).
      destruct (wants_tool_calls response) eqn:Wants.
      * destruct (Wt eq_refl) as (calls & C & D).
        rewrite A, C. cbn [opt_list_items].
        match goal with
        | |- context [exec mcp_jira_client calls ?m ?s] =>
            destruct (exec_spec calls m s)
              as (st2 & os & evs_t & E & Len & T2 & O & Cnt)
        end.
        rewrite E.
        match goal with
        | |- context [loop n ?m st2] =>
            destruct (IH m st2) as (evs_r & T3 & R)
        end.
        exists (EvLLM messages tools (inr response) :: evs_t ++ evs_r)%list.
        split.
        -- rewrite T3, T2. simpl. rewrite T1.
           rewrite <- !app_assoc. reflexivity.
        -- eapply Run_turn; eauto.
           assert ((messages ++ _assistant_message_to_dict message
                      :: turn_messages calls os)
                   = ((messages ++ [_assistant_message_to_dict message])
                        ++ turn_messages calls os))%list as Hm
             by (rewrite <- app_assoc; reflexivity).
           rewrite Hm. exact R.
      * exists [EvLLM messages tools (inr response)]. simpl.
        rewrite T1. split; [reflexivity|].
        eapply Run_final; eauto.
Qed.

(** *** What holds of every run *)

Lemma Run_first (n : nat) (messages : list Message) (evs : list Event)
    (out : Exn + string) :
  Run json_loads max_iterations issue_key tools (S n) messages evs out ->
  exists o rest, evs = EvLLM messages tools o :: rest.
Proof. inversion 1; subst; eauto. Qed.

Lemma Run_llm_bound (n : nat) (messages : list Message) (evs : list Event)
    (out : Exn + string) :
  Run json_loads max_iterations issue_key tools n messages evs out ->
  llm_calls evs <= n.
Proof.
  induction 1; try (cbv; lia).
  change (EvLLM messages tools (inr response) :: evs_turn ++ evs_rest)%list
    with ([EvLLM messages tools (inr response)] ++ evs_turn ++ evs_rest)%list.
  rewrite !llm_calls_app. change (llm_calls [EvLLM _ _ _]) with 1. lia.
Qed.

Lemma Run_all_tools (n : nat) (messages : list Message) (evs : list Event)
    (out : Exn + string) :
  Run json_loads max_iterations issue_key tools n messages evs out ->
  Forall requests_tools evs ->
  llm_calls evs = n
  /\ out = inr (max_iterations_message max_iterations issue_key).
Proof.
  induction 1 as [ | | n messages response message W A F
                   | n messages response message calls os evs_t evs_r out
                       W A C D Len O Cnt R IH ]; intros All.
  - split; reflexivity.
  - inversion All as [|? ? Bad _]; contradiction Bad.
  - inversion All as [|? ? Bad _]; simpl in Bad; congruence.
  - inversion All as [|? ? _ All']; subst.
    apply Forall_app in All' as [_ All_r].
    destruct (IH All_r) as [N ->]. split; [|reflexivity].
    change (EvLLM messages tools (inr response) :: evs_t ++ evs_r)%list
      with ([EvLLM messages tools (inr response)] ++ evs_t ++ evs_r)%list.
    rewrite !llm_calls_app, Cnt, N. reflexivity.
Qed.



Lemma llm_calls_zero (evs : list Event) :
  llm_calls evs = 0 -> Forall (fun ev => is_llm ev = false) evs.
Proof.
  unfold llm_calls. induction evs as [|ev evs IH]; [constructor|].
  simpl. destruct (is_llm ev) eqn:E; [discriminate|].
  intros H. constructor; auto.
Qed.








End LoopFacts.

(** *** Loading the configuration *)

Lemma get_domain_config_trace (st : St World) :
  trace (fst (_get_domain_config load_domain_config model_validate st))
  = trace st.
Proof.
  unfold _get_domain_config, bind, external, lift.
  destruct (load_domain_config (world st)) as [w [e|raw]]; reflexivity.
Qed.

Lemma run_with_loaded (max_iterations : nat)
    (mcp_jira_client : MCPJiraClient Session)
    (issue_key mode : string) (pm_comment : option string)
    (st st0 : St World) (config : DomainConfig) :
  _get_domain_config load_domain_config model_validate st = (st0, inr config) ->
  run_with max_iterations mcp_jira_client issue_key mode pm_comment st
  = iterations mcp_jira_client max_iterations issue_key
      (get_tools_as_openai_functions mcp_jira_client) max_iterations
      (Prompts.build_agent_prompt issue_key mode pm_comment config) st0.
Proof.
  intros H. unfold run_agent_loop_with, bind. rewrite H. reflexivity.
Qed.

Lemma run_with_not_loaded (max_iterations : nat)
    (mcp_jira_client : MCPJiraClient Session)
    (issue_key mode : string) (pm_comment : option string)
    (st st0 : St World) (e : Exn) :
  _get_domain_config load_domain_config model_validate st = (st0, inl e) ->
  run_with max_iterations mcp_jira_client issue_key mode pm_comment st
  = (st0, inl e).
Proof.
  intros H. unfold run_agent_loop_with, bind. rewrite H. reflexivity.
Qed.

(** Every run of [run_agent_loop_with] either stops while loading the
    configuration, with an untouched trace, or is a [Run] from the
    initial prompt. *)
Lemma run_with_cases (max_iterations : nat)
    (mcp_jira_client : MCPJiraClient Session)
    (issue_key mode : string) (pm_comment : option string)
    (st st' : St World) (out : Exn + string) (evs : list Event) :
  run_with max_iterations mcp_jira_client issue_key mode pm_comment st
  = (st', out) ->
  trace st' = (trace st ++ evs)%list ->
  (evs = [] /\ exists e st0,
      out = inl e
      /\ _get_domain_config load_domain_config model_validate st
         = (st0, inl e))
  \/ (exists config st0,
        _get_domain_config load_domain_config model_validate st
        = (st0, inr config)
        /\ Run json_loads max_iterations issue_key
             (get_tools_as_openai_functions mcp_jira_client) max_iterations
             (Prompts.build_agent_prompt issue_key mode pm_comment config)
             evs out).
Proof.
  intros H T.
  pose proof (get_domain_config_trace st) as T0.
  destruct (_get_domain_config load_domain_config model_validate st)
    as [st0 [e|config]] eqn:G; simpl in T0.
  - rewrite (run_with_not_loaded _ _ _ _ _ _ _ _ G) in H.
    injection H as <- <-. left. split; [|eauto].
    assert (trace st ++ evs = trace st ++ [])%list as E
      by (rewrite app_nil_r; congruence).
    now apply app_inv_head in E.
  - right. exists config, st0. split; [reflexivity|].
    rewrite (run_with_loaded _ _ _ _ _ _ _ _ G) in H.
    destruct (iterations_run mcp_jira_client max_iterations issue_key
                (get_tools_as_openai_functions mcp_jira_client) max_iterations
                (Prompts.build_agent_prompt issue_key mode pm_comment config) st0)
      as (evs0 & T1 & R).
    rewrite H in T1, R. simpl in T1, R.
    rewrite T1, T0 in T. apply app_inv_head in T. now subst.
Qed.

End AgentFacts.

(** ** Turns of a run *)

Section TurnFacts.

Variable json_loads : string -> Exn + JSON.
Variable max_iterations : nat.
Variable issue_key : string.
Variable tools : list ToolDef.

Local Abbreviation run_of := (Run json_loads max_iterations issue_key tools).



End TurnFacts.

(** ** The agent loop: termination and the single-turn run *)

Section LoopClaims.

Context {World Session RawConfig : Type}.
Variable chat_completions_create :
  list Message -> option (list ToolDef) -> World -> World * (Exn + ChatMessage).
Variable json_loads : string -> Exn + JSON.
Variable session_call_tool :
  Session -> string -> JSON -> World -> World * (Exn + CallToolResult).
Variable load_domain_config : World -> World * (Exn + RawConfig).
Variable model_validate : RawConfig -> Exn + DomainConfig.

Local Abbreviation call_llm :=
  (call_llm_with_tools chat_completions_create json_loads).
Local Abbreviation get_config :=
  (_get_domain_config load_domain_config model_validate).
Local Abbreviation run :=
  (run_agent_loop chat_completions_create json_loads session_call_tool
     load_domain_config model_validate).

Lemma max_iterations_message_15 (issue_key : string) :
  max_iterations_message MAX_AGENT_ITERATIONS issue_key
  = "Agent reached maximum iterations (15) for " ++ issue_key ++ ".".
Proof. reflexivity. Qed.

(** C1.  No run of [run_agent_loop] makes more than 15 chat gateway
    calls.  In a run that reaches the loop and in which every chat
    gateway call returns a response requesting tool calls, exactly 15
    (MAX_AGENT_ITERATIONS) chat gateway calls are made and the run returns
    the diagnostic string, which contains both "15" and the issue key. *)
Theorem ceiling_after_15_gateway_calls
    (mcp_jira_client : MCPJiraClient Session)
    (issue_key mode : string) (pm_comment : option string)
    (st st' : St World) (out : Exn + string) (evs : list Event) :
  run mcp_jira_client issue_key mode pm_comment st = (st', out) ->
  trace st' = (trace st ++ evs)%list ->
  llm_calls evs <= 15
  /\ ((exists st0 config, get_config st = (st0, inr config)) ->
      Forall requests_tools evs ->
      llm_calls evs = MAX_AGENT_ITERATIONS
      /\ llm_calls evs = 15
      /\ exists text,
           out = inr text
           /\ text = "Agent reached maximum iterations (15) for "
                       ++ issue_key ++ "."
           /\ Contains "15" text
           /\ Contains issue_key text).
Proof.
  intros H T.
  destruct (run_with_cases _ _ _ _ _ _ _ _ _ _ _ _ _ _ H T)
    as [[-> (e & st0 & -> & G)] | (config & st0 & G & R)].
  - split; [cbv; lia|]. intros (st0' & config & G') _. congruence.
  - split; [exact (Run_llm_bound _ _ _ _ _ _ _ _ R)|].
    intros _ All.
    destruct (Run_all_tools _ _ _ _ _ _ _ _ R All) as [N ->].
    split; [exact N|]. split; [exact N|].
    eexists. split; [reflexivity|]. rewrite max_iterations_message_15.
    split; [reflexivity|]. split.
    + exists "Agent reached maximum iterations (", (") for " ++ issue_key ++ ".").
      reflexivity.
    + exists "Agent reached maximum iterations (15) for ", ".".
      reflexivity.
Qed.

(** C3.  When the configuration loads and the first chat gateway
    response is a final answer (it requests no tool calls), the run makes
    exactly one chat gateway call and no tool gateway call, and returns
    exactly the text the gateway supplied: the content of the assistant
    message, or the empty string when the message has no content. *)
Theorem final_answer_on_first_call
    (mcp_jira_client : MCPJiraClient Session)
    (issue_key mode : string) (pm_comment : option string)
    (st st0 st1 : St World) (config : DomainConfig)
    (response : LLMToolResponse) :
  let prompt := Prompts.build_agent_prompt issue_key mode pm_comment config in
  let tools := get_tools_as_openai_functions mcp_jira_client in
  get_config st = (st0, inr config) ->
  call_llm prompt tools st0 = (st1, inr response) ->
  wants_tool_calls response = false ->
  exists st' text message evs,
    run mcp_jira_client issue_key mode pm_comment st = (st', inr text)
    /\ trace st' = (trace st ++ evs)%list
    /\ evs = [EvLLM prompt tools (inr response)]
    /\ llm_calls evs = 1
    /\ tool_calls_made evs = 0
    /\ session_calls evs = 0
    /\ resp_assistant_message response = Some message
    /\ resp_final_text response = Some text
    /\ text = opt_or (cm_content message) EmptyString
    /\ (cm_content message = None -> text = EmptyString).
Proof.
  intros prompt tools G L W.
  destruct (call_llm_inv _ _ _ _ _ _ _ L) as (message & A & _ & _ & F).
  specialize (F W).
  pose proof (call_llm_trace chat_completions_create json_loads prompt tools st0)
    as T1. rewrite L in T1. simpl in T1.
  pose proof (get_domain_config_trace load_domain_config model_validate st)
    as T0. rewrite G in T0. simpl in T0.
  exists {| world := world st1;
            trace := trace st1 ++ [EvLLM prompt tools (inr response)] |},
    (opt_or (cm_content message) EmptyString), message,
    [EvLLM prompt tools (inr response)].
  split.
  - unfold run_agent_loop.
    rewrite (run_with_loaded _ _ _ _ _ _ _ _ _ _ _ _ _ G).
    change MAX_AGENT_ITERATIONS with 15 at 2. rewrite loop_step.
    fold prompt tools. rewrite L. cbv zeta. rewrite W, F.
    cbn [opt_or]. f_equal. f_equal. unfold or_else.
    destruct (opt_or (cm_content message) EmptyString); reflexivity.
  - simpl. rewrite T1, T0. repeat split; try reflexivity; auto.
    intros ->. reflexivity.
Qed.

Local Abbreviation tool := (call_tool session_call_tool).
Local Abbreviation exec := (exec_tool_calls session_call_tool).


(** C5.  In [pm_feedback] mode the prompt is a system message followed by
    a user message whose content embeds the PM comment verbatim when one is
    supplied and the placeholder "(no comment provided)" when it is
    absent; once the configuration has loaded, that prompt is the message
    list of the first chat gateway call of the run. *)
Theorem pm_comment_reaches_first_call
    (mcp_jira_client : MCPJiraClient Session)
    (issue_key : string) (pm_comment : option string)
    (st st0 : St World) (config : DomainConfig) :
  let prompt :=
    Prompts.build_agent_prompt issue_key "pm_feedback" pm_comment config in
  let tools := get_tools_as_openai_functions mcp_jira_client in
  get_config st = (st0, inr config) ->
  exists system user,
    prompt = [system; user]
    /\ role user = "user"
    /\ match pm_comment with
       | Some comment => Contains comment (content user)
       | None => Contains "(no comment provided)" (content user)
       end
    /\ exists st' out o rest,
         run mcp_jira_client issue_key "pm_feedback" pm_comment st = (st', out)
         /\ trace st' = (trace st ++ EvLLM prompt tools o :: rest)%list.
Proof.
  intros prompt tools G.
  eexists _, _. split; [reflexivity|]. split; [reflexivity|]. split.
  - cbn [content].
    destruct pm_comment as [comment|]; cbn [opt_or];
      do 7 apply Contains_app_r.
    + apply Contains_app_l. apply Contains_or_else.
    + apply Contains_head.
  - pose proof (get_domain_config_trace load_domain_config model_validate st)
      as T0. rewrite G in T0. simpl in T0.
    destruct (iterations_run chat_completions_create json_loads
                session_call_tool mcp_jira_client MAX_AGENT_ITERATIONS
                issue_key tools MAX_AGENT_ITERATIONS prompt st0)
      as (evs & T & R).
    destruct (Run_first _ _ _ _ _ _ _ _ R) as (o & rest & ->).
    eexists _, _, o, rest. split.
    + unfold run_agent_loop.
      rewrite (run_with_loaded _ _ _ _ _ _ _ _ _ _ _ _ _ G).
      apply surjective_pairing.
    + fold prompt tools. rewrite T, T0. reflexivity.
Qed.


End LoopClaims.

(** ** Message assembly, tool catalog and the tool gateway client *)

Section GatewayClaims.

Context {World Session : Type}.
Variable session_call_tool :
  Session -> string -> JSON -> World -> World * (Exn + CallToolResult).

Local Abbreviation tool := (call_tool session_call_tool).

(** C6.  [_assistant_message_to_dict] builds an assistant message whose
    tool calls are those of the raw assistant turn, one for one and in
    order, each with the same id, function name and argument text (the
    argument string is copied, never decoded), all of type "function";
    its content is the turn's content, and the empty string when the turn
    has none. *)
Theorem assistant_message_preserves_tool_calls (message : ChatMessage) :
  let msg := _assistant_message_to_dict message in
  role msg = "assistant"
  /\ tool_call_id msg = None
  /\ content msg = match cm_content message with
                   | Some text => text
                   | None => EmptyString
                   end
  /\ map (fun d => (tcd_id d, fn_name (tcd_function d),
                    fn_arguments (tcd_function d)))
         (opt_list_items (tool_calls msg))
     = map (fun tc => (ctc_id tc, fn_name (ctc_function tc),
                       fn_arguments (ctc_function tc)))
           (opt_list_items (cm_tool_calls message))
  /\ List.length (opt_list_items (tool_calls msg))
     = List.length (opt_list_items (cm_tool_calls message))
  /\ Forall (fun d => tcd_type d = "function") (opt_list_items (tool_calls msg)).
Proof.
  unfold _assistant_message_to_dict. cbn [role content tool_calls tool_call_id].
  split; [reflexivity|]. split; [reflexivity|]. split.
  { destruct (cm_content message) as [[|c text]|]; reflexivity. }
  destruct (cm_tool_calls message) as [[|tc tcs]|];
    cbn [opt_list_truthy opt_list_items].
  - repeat split; auto.
  - split; [|split].
    + rewrite map_map. reflexivity.
    + apply length_map.
    + apply Forall_map. apply Forall_forall. reflexivity.
  - repeat split; auto.
Qed.

(** C8 (amended).  [get_tools_as_openai_functions] maps the cached catalog
    entry by entry, in order: the i-th function entry has type "function",
    the i-th tool's name, its description (or the empty string), and as
    parameters the tool's inputSchema when that is present and non-empty,
    the default object schema otherwise. *)
Theorem openai_functions_of_tools (self : MCPJiraClient Session) :
  let functions := get_tools_as_openai_functions self in
  List.length functions = List.length (_tools self)
  /\ forall i tool,
       nth_error (_tools self) i = Some tool ->
       exists f,
         nth_error functions i = Some f
         /\ td_type f = "function"
         /\ tf_name (td_function f) = tool_name tool
         /\ tf_description (td_function f)
            = match tool_description tool with
              | Some d => d
              | None => EmptyString
              end
         /\ tf_parameters (td_function f)
            = match inputSchema tool with
              | Some schema =>
                  if json_truthy schema then schema
                  else JObj [("type", JStr "object"); ("properties", JObj [])]
              | None =>
                  JObj [("type", JStr "object"); ("properties", JObj [])]
              end.
Proof.
  unfold get_tools_as_openai_functions. cbv zeta. split.
  - apply length_map.
  - intros i tool H. eexists. split.
    + rewrite nth_error_map, H. reflexivity.
    + cbn. repeat split.
      destruct (tool_description tool) as [[|c d]|]; reflexivity.
Qed.

(** C10.  Without a session, [call_tool] raises RuntimeError("MCP client
    not connected. Call start() first.") and leaves the state untouched: no
    session operation is invoked.  With a session whose operation returns
    a result, it raises RuntimeError("MCP tool '<name>' failed: <text>")
    when the result is flagged as an error and returns <text> when it is
    not, where <text> is the newline-joined text parts of the result. *)
Theorem call_tool_contract (self : MCPJiraClient Session)
    (name : string) (arguments : JSON) (st : St World) :
  (_session self = None ->
   tool self name arguments st
   = (st, inl (RuntimeError "MCP client not connected. Call start() first."))
   /\ session_calls (trace (fst (tool self name arguments st)))
      = session_calls (trace st))
  /\ (forall session w result,
        _session self = Some session ->
        let sent := if json_truthy arguments then arguments else JObj [] in
        session_call_tool session name sent (world st) = (w, inr result) ->
        let text :=
          String.concat nl
            (flat_map (fun c => match c with
                                | TextContent t => [t]
                                | _ => []
                                end) (result_content result)) in
        let failure := "MCP tool '" ++ name ++ "' failed: " ++ text in
        let st' := {| world := w;
                      trace := trace st ++ [EvSession name sent] |} in
        tool self name arguments st
        = (st', if isError result then inl (RuntimeError failure)
                else inr text)
        /\ Contains name failure
        /\ Contains text failure).
Proof.
  split.
  - intros H. rewrite (call_tool_disconnected _ _ _ _ _ H). auto.
  - intros session w result H sent R text failure st'.
    pose proof (call_tool_connected session_call_tool self session name
                  arguments st H) as C.
    cbv zeta in C. fold sent in C. rewrite R in C. split.
    + rewrite C. destruct (isError result); reflexivity.
    + split.
      * exists "MCP tool '", ("' failed: " ++ text). reflexivity.
      * exists ("MCP tool '" ++ name ++ "' failed: "), EmptyString.
        unfold failure. rewrite !append_assoc, append_nil_r. reflexivity.
Qed.

End GatewayClaims.

(** ** The configuration-derived context block *)

Section ContextClaims.

Import Prompts.

Lemma join_truthy (sep first : string) (rest : list string) :
  truthy first = true -> truthy (join sep (first :: rest)) = true.
Proof.
  destruct first; [discriminate|]. destruct rest; reflexivity.
Qed.

Lemma lines_or_placeholder {A : Type} (render : A -> string)
    (items : list A) :
  (forall x, truthy (render x) = true) ->
  or_else (join nl (map render items)) NONE_DEFINED
  = match items with
    | [] => "  (none defined)"
    | x :: xs => join nl (map render (x :: xs))
    end.
Proof.
  intros H. destruct items as [|x items]; [reflexivity|].
  unfold or_else. cbn [map]. now rewrite join_truthy.
Qed.

(** C7 (amended).  The context block starts with the project name
    heading.  The repository sections (repository URL, tech stack,
    architecture notes, key modules) are appended only when their field is
    non-empty and contribute nothing otherwise.  The ticket-structure,
    personas, platforms, standards and acceptance-criteria sections are
    always rendered: an empty list of personas or standards is rendered as
    "  (none defined)", an empty list of platforms as "N/A", and an empty
    ticket structure as an empty list of headings under its title. *)
Theorem domain_context_sections (config : DomainConfig) :
  let repository :=
    match repo_url config with
    | EmptyString => EmptyString
    | url => nl ++ "### Repository: " ++ url ++ nl
    end in
  let tech :=
    match tech_stack config with
    | [] => EmptyString
    | stack =>
        nl ++ "### Tech stack:" ++ nl
           ++ join nl (map (fun t => "  - " ++ t) stack) ++ nl
    end in
  let architecture :=
    match architecture_notes config with
    | EmptyString => EmptyString
    | notes => nl ++ "### Architecture:" ++ nl ++ notes ++ nl
    end in
  let modules :=
    match key_modules config with
    | [] => EmptyString
    | ms =>
        nl ++ "### Key modules:" ++ nl
           ++ join nl (map (fun m => "  - **" ++ module_name m ++ "** (`"
                                       ++ module_path m ++ "`): "
                                       ++ module_description m) ms)
           ++ nl
    end in
  let headings :=
    join nl (map (fun s => "  - " ++ s) (ticket_structure config)) in
  let personas :=
    match user_personas config with
    | [] => "  (none defined)"
    | ps => join nl (map (fun p => "  - **" ++ persona_name p ++ "**: "
                                     ++ persona_description p) ps)
    end in
  let targets :=
    match platforms config with
    | [] => "N/A"
    | ps => join ", " ps
    end in
  let rules :=
    match standards config with
    | [] => "  (none defined)"
    | kvs => join nl (map (fun kv => "  - **" ++ fst kv ++ "**: " ++ snd kv) kvs)
    end in
  _domain_context config
  = nl ++ nl ++ "## Project context: " ++ project_name config ++ nl
      ++ repository ++ tech ++ architecture ++ modules
      ++ nl ++ "### Required ticket structure (use these as markdown headings):"
      ++ nl ++ headings ++ nl
      ++ nl ++ "### Known user personas:" ++ nl ++ personas ++ nl
      ++ nl ++ "### Target platforms: " ++ targets ++ nl
      ++ nl ++ "### Non-functional standards:" ++ nl ++ rules ++ nl
      ++ nl ++ "### Acceptance criteria style: "
      ++ acceptance_criteria_style config ++ nl.
Proof.
  intros repository tech architecture modules headings personas targets rules.
  unfold _domain_context.
  rewrite (lines_or_placeholder
             (fun p => "  - **" ++ persona_name p ++ "**: "
                         ++ persona_description p)
             (user_personas config)) by reflexivity.
  rewrite (lines_or_placeholder
             (fun kv => "  - **" ++ fst kv ++ "**: " ++ snd kv)
             (standards config)) by reflexivity.
  subst repository tech architecture modules headings personas targets rules.
  destruct (repo_url config) as [|c1 url];
    destruct (tech_stack config) as [|t ts];
    destruct (architecture_notes config) as [|c2 notes];
    destruct (key_modules config) as [|m ms];
    destruct (platforms config) as [|pl pls];
    cbn [truthy]; repeat rewrite append_assoc; reflexivity.
Qed.

End ContextClaims.

(** ** The scenarios of the test suite *)

Lemma Forall_requests_tools (evs : list Event) :
  forallb requests_toolsb evs = true -> Forall requests_tools evs.
Proof.
  induction evs as [|ev evs IH]; [constructor|].
  cbn [forallb]. intros H. apply andb_prop in H as [H1 H2].
  constructor; [|auto].
  destruct ev as [log tools [e|response] | |];
    cbn [requests_tools requests_toolsb] in *;
    try assumption; try discriminate; exact I.
Qed.

Lemma logs_sent_In (log : list Message) (evs : list Event) :
  In log (logs_sent evs) -> exists tools o, In (EvLLM log tools o) evs.
Proof.
  unfold logs_sent. intros H. apply in_flat_map in H as (ev & I & L).
  destruct ev as [log' tools o| |]; try contradiction L.
  destruct L as [<-|[]]. eauto.
Qed.

(** Scenario D of the test suite at the production ceiling: the gateway
    requests a tool on every call; 15 calls are made and the diagnostic is
    returned. *)
Lemma ceiling_after_15_gateway_calls_witness :
  (exists st0 config,
      _get_domain_config Scenario.load_default Scenario.validate Scenario.start
      = (st0, inr config))
  /\ Forall requests_tools (trace (fst Scenario.runaway))
  /\ llm_calls (trace (fst Scenario.runaway)) = 15
  /\ snd Scenario.runaway
     = inr "Agent reached maximum iterations (15) for PROJ-1.".
Proof.
  assert (exists st0 config,
             _get_domain_config Scenario.load_default Scenario.validate
               Scenario.start = (st0, inr config)) as G
    by (exists Scenario.start, default_domain_config; reflexivity).
  assert (Forall requests_tools (trace (fst Scenario.runaway))) as All
    by (apply Forall_requests_tools; vm_compute; reflexivity).
  split; [exact G|]. split; [exact All|].
  assert (run_agent_loop (Scenario.chat_always Scenario.wants_search)
            Scenario.json_loads (Scenario.session_returns Scenario.ok_result)
            Scenario.load_default Scenario.validate
            Scenario.connected "PROJ-1" "first_pass" None Scenario.start
          = (fst Scenario.runaway, snd Scenario.runaway)) as R
    by (unfold Scenario.runaway; apply surjective_pairing).
  assert (trace (fst Scenario.runaway)
          = trace Scenario.start ++ trace (fst Scenario.runaway))%list as T
    by (cbn [Scenario.start trace app]; reflexivity).
  destruct (ceiling_after_15_gateway_calls _ _ _ _ _ _ _ _ _ _ _ _ _ R T)
    as [_ H].
  destruct (H G All) as (_ & N & text & E & -> & _).
  split; [exact N | exact E].
Defined.

(** Scenario A of the test suite, in feedback mode: one gateway call, no
    tool call, the gateway's text returned. *)
Lemma final_answer_on_first_call_witness :
  snd Scenario.feedback = inr "Feedback incorporated."
  /\ llm_calls (trace (fst Scenario.feedback)) = 1
  /\ tool_calls_made (trace (fst Scenario.feedback)) = 0.
Proof.
  assert (_get_domain_config Scenario.load_default Scenario.validate
            Scenario.start = (Scenario.start, inr default_domain_config)) as G
    by reflexivity.
  assert (call_llm_with_tools
            (Scenario.chat_always (Scenario.says "Feedback incorporated."))
            Scenario.json_loads
            (Prompts.build_agent_prompt "PROJ-2" "pm_feedback"
               (Some "Yes to all") default_domain_config)
            (get_tools_as_openai_functions Scenario.connected) Scenario.start
          = ({| world := 1; trace := [] |},
             inr {| resp_tool_calls := None;
                    resp_final_text := Some "Feedback incorporated.";
                    resp_assistant_message :=
                      Some (Scenario.says "Feedback incorporated.") |})) as L
    by reflexivity.
  destruct (final_answer_on_first_call
              (Scenario.chat_always (Scenario.says "Feedback incorporated."))
              Scenario.json_loads
              (Scenario.session_returns Scenario.ok_result)
              Scenario.load_default Scenario.validate
              Scenario.connected "PROJ-2" "pm_feedback" (Some "Yes to all")
              _ _ _ _ _ G L eq_refl)
    as (st' & text & message & evs & R & T & _ & N & M & _ & _ & F & _).
  injection F as <-.
  fold Scenario.feedback in R.
  rewrite R. cbn [fst snd]. rewrite T. cbn [Scenario.start trace app].
  split; [reflexivity|]. split; assumption.
Defined.

(** The feedback test: the PM comment is in the user message handed to the
    first gateway call. *)
Lemma pm_comment_reaches_first_call_witness :
  exists system user o rest,
    Prompts.build_agent_prompt "PROJ-2" "pm_feedback" (Some "Yes to all")
      default_domain_config = [system; user]
    /\ Contains "Yes to all" (content user)
    /\ trace (fst Scenario.feedback)
       = EvLLM [system; user] (get_tools_as_openai_functions Scenario.connected) o
           :: rest.
Proof.
  assert (_get_domain_config Scenario.load_default Scenario.validate
            Scenario.start = (Scenario.start, inr default_domain_config)) as G
    by reflexivity.
  destruct (pm_comment_reaches_first_call
              (Scenario.chat_always (Scenario.says "Feedback incorporated."))
              Scenario.json_loads
              (Scenario.session_returns Scenario.ok_result)
              Scenario.load_default Scenario.validate
              Scenario.connected "PROJ-2" (Some "Yes to all")
              _ _ _ G)
    as (system & user & E & _ & C & st' & out & o & rest & R & T).
  exists system, user, o, rest.
  split; [exact E|]. split; [exact C|].
  fold Scenario.feedback in R. rewrite R. cbn [fst]. rewrite T, E.
  reflexivity.
Defined.





(** C7, as stated, fails for the default configuration: it has no
    personas, platforms or standards, yet the three sections are rendered,
    with placeholder text. *)
Lemma empty_fields_still_rendered :
  ~ (forall config : DomainConfig,
        (user_personas config = [] ->
         ~ Contains "### Known user personas:" (Prompts._domain_context config))
        /\ (platforms config = [] ->
            ~ Contains "### Target platforms:" (Prompts._domain_context config))
        /\ (standards config = [] ->
            ~ Contains "### Non-functional standards:"
                (Prompts._domain_context config))).
Proof.
  intros H. destruct (H default_domain_config) as (P & _ & _).
  apply (P eq_refl). apply contains_sound. vm_compute. reflexivity.
Qed.

(** C8, as stated, fails for a tool whose input schema is present but
    empty: its parameters are the default object schema, not the schema. *)
Lemma empty_schema_replaced_by_default :
  ~ (forall (self : MCPJiraClient unit) (i : nat) (tool : Tool) (schema : JSON),
        nth_error (_tools self) i = Some tool ->
        inputSchema tool = Some schema ->
        exists f,
          nth_error (get_tools_as_openai_functions self) i = Some f
          /\ tf_parameters (td_function f) = schema).
Proof.
  intros H.
  destruct (H {| _session := None; _tools := [Scenario.any_input_tool] |}
              0 Scenario.any_input_tool (JObj []) eq_refl eq_refl)
    as (f & N & P).
  injection N as <-. discriminate P.
Qed.

(** The catalog test: the cached tool with a schema keeps it. *)
Lemma openai_functions_of_tools_witness :
  exists f,
    get_tools_as_openai_functions Scenario.connected = [f]
    /\ td_type f = "function"
    /\ tf_name (td_function f) = "jira_get_issue"
    /\ Some (tf_parameters (td_function f)) = inputSchema Scenario.get_issue_tool.
Proof.
  destruct (openai_functions_of_tools Scenario.connected) as [_ H].
  destruct (H 0 Scenario.get_issue_tool eq_refl)
    as (f & N & Ty & Nm & _ & P).
  exists f. split.
  - cbn in N. injection N as <-. reflexivity.
  - split; [exact Ty|]. split; [exact Nm|]. rewrite P. reflexivity.
Defined.

(** The client tests: a client that was never started raises without
    reaching the session; a started one returns the joined text parts, or
    raises with the error text when the result is flagged. *)
Lemma call_tool_contract_witness :
  call_tool (Scenario.session_returns Scenario.mixed_result)
    Scenario.disconnected "jira_get_issue"
    (JObj [("issue_key", JStr "PROJ-1")]) Scenario.start
  = (Scenario.start,
     inl (RuntimeError "MCP client not connected. Call start() first."))
  /\ snd (call_tool (Scenario.session_returns Scenario.mixed_result)
            Scenario.connected "jira_get_issue"
            (JObj [("issue_key", JStr "PROJ-1")]) Scenario.start)
     = inr ("PROJ-1" ++ nl ++ "Summary: Test")
  /\ snd (call_tool (Scenario.session_returns Scenario.error_result)
            Scenario.connected "jira_get_issue" JNull Scenario.start)
     = inl (RuntimeError
              "MCP tool 'jira_get_issue' failed: Issue does not exist").
Proof.
  split; [|split].
  - destruct (call_tool_contract
                (Scenario.session_returns Scenario.mixed_result)
                Scenario.disconnected "jira_get_issue"
                (JObj [("issue_key", JStr "PROJ-1")]) Scenario.start)
      as [H _].
    exact (proj1 (H eq_refl)).
  - destruct (call_tool_contract
                (Scenario.session_returns Scenario.mixed_result)
                Scenario.connected "jira_get_issue"
                (JObj [("issue_key", JStr "PROJ-1")]) Scenario.start)
      as [_ H].
    destruct (H tt 0 Scenario.mixed_result eq_refl eq_refl) as [E _].
    rewrite E. reflexivity.
  - destruct (call_tool_contract
                (Scenario.session_returns Scenario.error_result)
                Scenario.connected "jira_get_issue" JNull Scenario.start)
      as [_ H].
    destruct (H tt 0 Scenario.error_result eq_refl eq_refl) as [E _].
    rewrite E. reflexivity.
Defined.

(** ** Further properties of the agent loop *)

Section RunExtras.

Variable json_loads : string -> Exn + JSON.
Variable max_iterations : nat.
Variable issue_key : string.
Variable tools : list ToolDef.

Local Abbreviation run_of := (Run json_loads max_iterations issue_key tools).

Lemma quiet_requests_tools (evs : list Event) :
  llm_calls evs = 0 -> Forall requests_tools evs.
Proof.
  intros H. apply llm_calls_zero in H.
  induction H as [|ev evs Q _ IH]; constructor; auto.
  destruct ev; try discriminate Q; exact I.
Qed.

Lemma quiet_requested (evs : list Event) :
  llm_calls evs = 0 -> requested evs = [].
Proof.
  intros H. apply llm_calls_zero in H.
  induction H as [|ev evs Q _ IH]; [reflexivity|].
  destruct ev; try discriminate Q; exact IH.
Qed.

Lemma requested_app (a b : list Event) :
  requested (a ++ b) = (requested a ++ requested b)%list.
Proof. unfold requested. apply flat_map_app. Qed.

(** The three ways a run ends. *)
Lemma Run_ends (n : nat) (messages : list Message) (evs : list Event)
    (out : Exn + string) :
  run_of n messages evs out ->
  (llm_calls evs = n
   /\ Forall requests_tools evs
   /\ out = inr (max_iterations_message max_iterations issue_key))
  \/ (exists pre log response message,
        evs = (pre ++ [EvLLM log tools (inr response)])%list
        /\ Forall requests_tools pre
        /\ wants_tool_calls response = false
        /\ resp_assistant_message response = Some message
        /\ out = inr (opt_or (cm_content message) EmptyString))
  \/ (exists pre log e,
        evs = (pre ++ [EvLLM log tools (inl e)])%list
        /\ Forall requests_tools pre
        /\ out = inl e).
Proof.
  induction 1 as [ messages | n messages e0 | n messages response message W A F
                 | n messages response message calls os evs_t evs_r out
                     W A C D Len O Cnt R IH ].
  - left. repeat split. constructor.
  - right. right. exists [], messages, e0. repeat split. constructor.
  - right. left. exists [], messages, response, message.
    split; [reflexivity|]. split; [constructor|]. split; [exact W|].
    split; [exact A|]. rewrite F. cbn [opt_or]. f_equal.
    unfold or_else. destruct (opt_or (cm_content message) EmptyString);
      reflexivity.
  - assert (Forall requests_tools
              (EvLLM messages tools (inr response) :: evs_t)) as Head
      by (constructor; [exact W | now apply quiet_requests_tools]).
    destruct IH as [(N & All & ->) | [(pre & log & r & m & -> & All & Wr & Ar & ->)
                                     | (pre & log & e & -> & All & ->)]].
    + left. split; [|split; [|reflexivity]].
      * change (EvLLM messages tools (inr response) :: evs_t ++ evs_r)%list
          with ([EvLLM messages tools (inr response)] ++ evs_t ++ evs_r)%list.
        rewrite !llm_calls_app, Cnt, N. reflexivity.
      * change (Forall requests_tools
                  ((EvLLM messages tools (inr response) :: evs_t) ++ evs_r)).
        apply Forall_app. split; assumption.
    + right. left.
      exists ((EvLLM messages tools (inr response) :: evs_t) ++ pre)%list,
        log, r, m.
      split; [cbn; now rewrite <- app_assoc|].
      split; [apply Forall_app; split; assumption|]. auto.
    + right. right.
      exists ((EvLLM messages tools (inr response) :: evs_t) ++ pre)%list,
        log, e.
      split; [cbn; now rewrite <- app_assoc|].
      split; [apply Forall_app; split; assumption|]. reflexivity.
Qed.

(** What is invoked is what was requested. *)
Lemma Run_requested (n : nat) (messages : list Message) (evs : list Event)
    (out : Exn + string) :
  run_of n messages evs out -> tool_invocations evs = requested evs.
Proof.
  induction 1 as [ messages | n messages e0 | n messages response message W A F
                 | n messages response message calls os evs_t evs_r out
                     W A C D Len O Cnt R IH ].
  - reflexivity.
  - reflexivity.
  - cbn. unfold wants_tool_calls in W.
    destruct (resp_tool_calls response) as [[|c cs]|];
      try reflexivity; discriminate W.
  - change (EvLLM messages tools (inr response) :: evs_t ++ evs_r)%list
      with ([EvLLM messages tools (inr response)] ++ evs_t ++ evs_r)%list.
    rewrite !tool_invocations_app, !requested_app, IH.
    rewrite (quiet_requested evs_t Cnt).
    rewrite (tool_invocations_outcomes evs_t), O.
    rewrite (turn_outcomes_requests calls os Len).
    cbn. rewrite C. cbn. rewrite !app_nil_r. reflexivity.
Qed.

(** Every log handed to the gateway extends the log the run started from. *)
Lemma Run_logs_extend (n : nat) (messages : list Message) (evs : list Event)
    (out : Exn + string) :
  run_of n messages evs out ->
  forall log t o, In (EvLLM log t o) evs -> exists ext, log = (messages ++ ext)%list.
Proof.
  induction 1 as [ messages | n messages e0 | n messages response message W A F
                 | n messages response message calls os evs_t evs_r out
                     W A C D Len O Cnt R IH ]; intros log t o I.
  - contradiction I.
  - destruct I as [[= <- _ _]|[]]. exists []. now rewrite app_nil_r.
  - destruct I as [[= <- _ _]|[]]. exists []. now rewrite app_nil_r.
  - destruct I as [[= <- _ _]|I]; [exists []; now rewrite app_nil_r|].
    apply in_app_or in I as [I|I].
    + apply llm_calls_zero in Cnt. rewrite Forall_forall in Cnt.
      specialize (Cnt _ I). discriminate.
    + destruct (IH _ _ _ I) as [ext ->].
      eexists. rewrite <- app_assoc. reflexivity.
Qed.

(** A later log extends an earlier one by at least an assistant message and
    one tool result. *)
Lemma Run_logs_grow (n : nat) (messages : list Message) (evs : list Event)
    (out : Exn + string) :
  run_of n messages evs out ->
  forall pre log1 t1 o1 rest,
    evs = (pre ++ EvLLM log1 t1 o1 :: rest)%list ->
    forall log2 t2 o2,
      In (EvLLM log2 t2 o2) rest ->
      exists ext, log2 = (log1 ++ ext)%list /\ 2 <= List.length ext.
Proof.
  induction 1 as [ messages | n messages e0 | n messages response message W A F
                 | n messages response message calls os evs_t evs_r out
                     W A C D Len O Cnt R IH ];
    intros pre log1 t1 o1 rest E log2 t2 o2 I.
  - destruct pre; discriminate E.
  - destruct pre as [|? [|? ?]]; try discriminate E.
    injection E as _ _ _ <-. contradiction I.
  - destruct pre as [|? [|? ?]]; try discriminate E.
    injection E as _ _ _ <-. contradiction I.
  - assert (forall ev, In ev evs_t -> is_llm ev = false) as Quiet
      by (apply Forall_forall; now apply llm_calls_zero).
    destruct pre as [|ev pre].
    + injection E as <- _ _ <-.
      apply in_app_or in I as [I|I]; [specialize (Quiet _ I); discriminate|].
      destruct (Run_logs_extend _ _ _ _ R _ _ _ I) as [ext ->].
      eexists. rewrite <- app_assoc. split; [reflexivity|].
      cbn [app List.length]. rewrite length_app.
      rewrite (turn_messages_length calls os Len).
      unfold wants_tool_calls in W. rewrite C in W.
      destruct calls; [discriminate W|]. cbn. lia.
    + injection E as _ E.
      apply app_eq_app in E as [l [[E1 E2]|[E1 E2]]].
      * destruct l as [|ev' l].
        -- cbn in E2. apply (IH [] log1 t1 o1 rest (eq_sym E2) log2 t2 o2 I).
        -- injection E2 as E2 _. subst ev'.
           assert (In (EvLLM log1 t1 o1) evs_t) as Bad
             by (rewrite E1; apply in_or_app; right; now left).
           specialize (Quiet _ Bad). discriminate.
      * apply (IH l log1 t1 o1 rest E2 log2 t2 o2 I).
Qed.

End RunExtras.

Section LoopExtras.

Context {World Session RawConfig : Type}.
Variable chat_completions_create :
  list Message -> option (list ToolDef) -> World -> World * (Exn + ChatMessage).
Variable json_loads : string -> Exn + JSON.
Variable session_call_tool :
  Session -> string -> JSON -> World -> World * (Exn + CallToolResult).
Variable load_domain_config : World -> World * (Exn + RawConfig).
Variable model_validate : RawConfig -> Exn + DomainConfig.

Local Abbreviation call_llm :=
  (call_llm_with_tools chat_completions_create json_loads).
Local Abbreviation get_config :=
  (_get_domain_config load_domain_config model_validate).
Local Abbreviation tool := (call_tool session_call_tool).
Local Abbreviation exec := (exec_tool_calls session_call_tool).
Local Abbreviation iterations :=
  (agent_iterations chat_completions_create json_loads session_call_tool).
Local Abbreviation run :=
  (run_agent_loop chat_completions_create json_loads session_call_tool
     load_domain_config model_validate).

(** X1.  A run of [run_agent_loop] ends in exactly one of four ways: the
    configuration fails to load and nothing is called; fifteen gateway calls
    all requested tools and the ceiling diagnostic is returned; the last
    gateway call gave a final answer, whose content (or the empty string) is
    returned; or the last gateway call raised, and its exception leaves the
    run.  In the last three cases every earlier gateway call requested
    tools. *)
Theorem run_agent_loop_outcomes
    (mcp_jira_client : MCPJiraClient Session)
    (issue_key mode : string) (pm_comment : option string)
    (st st' : St World) (out : Exn + string) (evs : list Event) :
  run mcp_jira_client issue_key mode pm_comment st = (st', out) ->
  trace st' = (trace st ++ evs)%list ->
  let tools := get_tools_as_openai_functions mcp_jira_client in
  (evs = [] /\ exists e st0, out = inl e /\ get_config st = (st0, inl e))
  \/ (llm_calls evs = 15
      /\ Forall requests_tools evs
      /\ out = inr ("Agent reached maximum iterations (15) for "
                      ++ issue_key ++ "."))
  \/ (exists pre log response message,
        evs = (pre ++ [EvLLM log tools (inr response)])%list
        /\ Forall requests_tools pre
        /\ llm_calls evs <= 15
        /\ wants_tool_calls response = false
        /\ resp_assistant_message response = Some message
        /\ out = inr (match cm_content message with
                      | Some text => text
                      | None => EmptyString
                      end))
  \/ (exists pre log e,
        evs = (pre ++ [EvLLM log tools (inl e)])%list
        /\ Forall requests_tools pre
        /\ llm_calls evs <= 15
        /\ out = inl e).
Proof.
  intros H T tools.
  destruct (run_with_cases _ _ _ _ _ _ _ _ _ _ _ _ _ _ H T)
    as [[-> (e & st0 & -> & G)] | (config & st0 & G & R)].
  - left. split; [reflexivity|]. eauto.
  - right. pose proof (Run_llm_bound _ _ _ _ _ _ _ _ R) as B.
    destruct (Run_ends _ _ _ _ _ _ _ _ R)
      as [(N & All & ->) | [(pre & log & r & m & E & All & W & A & ->)
                           | (pre & log & e & E & All & ->)]].
    + left. repeat split; assumption.
    + right. left. exists pre, log, r, m. repeat split; try assumption.
      f_equal. destruct (cm_content m) as [[|c text]|]; reflexivity.
    + right. right. exists pre, log, e. repeat split; assumption.
Qed.

(** X2.  In every run the tool gateway is invoked exactly for the tool calls
    the gateway responses requested: the (name, arguments) pairs of the
    invocations, in order, are those of the requests, in order; a failed
    invocation does not cancel the ones after it. *)
Theorem every_request_invoked_once
    (mcp_jira_client : MCPJiraClient Session)
    (issue_key mode : string) (pm_comment : option string)
    (st st' : St World) (out : Exn + string) (evs : list Event) :
  run mcp_jira_client issue_key mode pm_comment st = (st', out) ->
  trace st' = (trace st ++ evs)%list ->
  tool_invocations evs = requested evs
  /\ tool_calls_made evs = List.length (requested evs).
Proof.
  intros H T.
  assert (tool_invocations evs = requested evs) as E.
  { destruct (run_with_cases _ _ _ _ _ _ _ _ _ _ _ _ _ _ H T)
      as [[-> _] | (config & st0 & G & R)]; [reflexivity|].
    exact (Run_requested _ _ _ _ _ _ _ _ R). }
  split; [exact E|].
  rewrite <- E, tool_invocations_outcomes, length_map.
  apply tool_calls_made_outcomes.
Qed.

(** X3.  The conversation log is append-only: every log handed to the
    gateway starts with the two-message prompt built from the loaded
    configuration, and each later log extends each earlier one by at least
    two messages (an assistant turn and a tool result). *)
Theorem logs_are_append_only
    (mcp_jira_client : MCPJiraClient Session)
    (issue_key mode : string) (pm_comment : option string)
    (st st' : St World) (out : Exn + string) (evs : list Event) :
  run mcp_jira_client issue_key mode pm_comment st = (st', out) ->
  trace st' = (trace st ++ evs)%list ->
  (forall log t o,
      In (EvLLM log t o) evs ->
      exists st0 config ext,
        get_config st = (st0, inr config)
        /\ log = (Prompts.build_agent_prompt issue_key mode pm_comment config
                    ++ ext)%list)
  /\ (forall pre log1 t1 o1 rest,
        evs = (pre ++ EvLLM log1 t1 o1 :: rest)%list ->
        forall log2 t2 o2,
          In (EvLLM log2 t2 o2) rest ->
          exists ext, log2 = (log1 ++ ext)%list /\ 2 <= List.length ext).
Proof.
  intros H T.
  destruct (run_with_cases _ _ _ _ _ _ _ _ _ _ _ _ _ _ H T)
    as [[-> _] | (config & st0 & G & R)].
  - split.
    + intros log t o [].
    + intros pre log1 t1 o1 rest E. destruct pre; discriminate E.
  - split.
    + intros log t o I.
      destruct (Run_logs_extend _ _ _ _ _ _ _ _ R _ _ _ I) as [ext ->].
      exists st0, config, ext. split; [exact G|reflexivity].
    + exact (Run_logs_grow _ _ _ _ _ _ _ _ R).
Qed.

(** *** Undecodable arguments *)

Lemma decode_tool_calls_fails (tcs : list ChatToolCall) (st : St World) :
  (exists tc e, In tc tcs
                /\ json_loads (fn_arguments (ctc_function tc)) = inl e) ->
  exists tc e,
    In tc tcs
    /\ json_loads (fn_arguments (ctc_function tc)) = inl e
    /\ decode_tool_calls json_loads tcs st = (st, inl e).
Proof.
  induction tcs as [|tc tcs IH]; intros (bad & e & I & J); [contradiction I|].
  cbn [decode_tool_calls]. unfold bind, lift.
  destruct (json_loads (fn_arguments (ctc_function tc))) as [e0|a] eqn:J0.
  - exists tc, e0. split; [now left|]. split; [exact J0|reflexivity].
  - destruct I as [<-|I]; [congruence|].
    destruct (IH (ex_intro _ bad (ex_intro _ e (conj I J))))
      as (tc' & e' & I' & J' & D).
    exists tc', e'. split; [now right|]. split; [exact J'|].
    rewrite D. reflexivity.
Qed.

(** X4.  When the gateway's message carries a tool call whose argument
    text [json.loads] rejects, [call_llm_with_tools] raises the decoder's
    exception, and an iteration of the agent loop lets it escape: the only
    event of the iteration is the gateway call, so no tool of that turn is
    invoked, not even those whose arguments decode. *)
Theorem undecodable_arguments_abort_turn
    (mcp_jira_client : MCPJiraClient Session)
    (max_iterations : nat) (issue_key : string) (tools : list ToolDef)
    (n : nat) (messages : list Message) (st : St World)
    (w : World) (message : ChatMessage) (bad : ChatToolCall) (e : Exn) :
  chat_completions_create messages
    (match tools with [] => None | _ :: _ => Some tools end) (world st)
  = (w, inr message) ->
  In bad (opt_list_items (cm_tool_calls message)) ->
  json_loads (fn_arguments (ctc_function bad)) = inl e ->
  exists tc e',
    In tc (opt_list_items (cm_tool_calls message))
    /\ json_loads (fn_arguments (ctc_function tc)) = inl e'
    /\ call_llm messages tools st
       = ({| world := w; trace := trace st |}, inl e')
    /\ iterations mcp_jira_client max_iterations issue_key tools (S n)
         messages st
       = ({| world := w;
             trace := trace st ++ [EvLLM messages tools (inl e')] |},
          inl e').
Proof.
  intros C I J.
  assert (opt_list_truthy (cm_tool_calls message) = true) as T.
  { destruct (cm_tool_calls message) as [[|? ?]|]; try contradiction I.
    reflexivity. }
  destruct (decode_tool_calls_fails (opt_list_items (cm_tool_calls message))
              {| world := w; trace := trace st |}
              (ex_intro _ bad (ex_intro _ e (conj I J))))
    as (tc & e' & I' & J' & D).
  assert (call_llm messages tools st
          = ({| world := w; trace := trace st |}, inl e')) as L.
  { unfold call_llm_with_tools, bind, external. rewrite C, T, D. reflexivity. }
  exists tc, e'. split; [exact I'|]. split; [exact J'|]. split; [exact L|].
  rewrite loop_step, L. reflexivity.
Qed.

(** *** A client that was never started *)


End LoopExtras.

Section LoopExtras2.

Context {World Session RawConfig : Type}.
Variable chat_completions_create :
  list Message -> option (list ToolDef) -> World -> World * (Exn + ChatMessage).
Variable json_loads : string -> Exn + JSON.
Variable session_call_tool :
  Session -> string -> JSON -> World -> World * (Exn + CallToolResult).
Variable load_domain_config : World -> World * (Exn + RawConfig).
Variable model_validate : RawConfig -> Exn + DomainConfig.

Local Abbreviation call_llm :=
  (call_llm_with_tools chat_completions_create json_loads).
Local Abbreviation get_config :=
  (_get_domain_config load_domain_config model_validate).
Local Abbreviation tool := (call_tool session_call_tool).
Local Abbreviation exec := (exec_tool_calls session_call_tool).
Local Abbreviation iterations :=
  (agent_iterations chat_completions_create json_loads session_call_tool).
Local Abbreviation run :=
  (run_agent_loop chat_completions_create json_loads session_call_tool
     load_domain_config model_validate).




(** X6.  What one tool request yields on a started client: the session
    operation is performed exactly once, with the name requested and with
    the arguments requested (an empty object when they are falsy), and the
    text answered to the request is the operation's joined text parts when it
    succeeds, "Error calling tool '<name>': MCP tool '<name>' failed:
    <text>" when the result is flagged as an error, and "Error calling tool
    '<name>': <e>" when the operation raises [e]. *)
Theorem tool_request_on_started_client
    (mcp_jira_client : MCPJiraClient Session) (session : Session)
    (tool_call : ToolCall) (st : St World) :
  _session mcp_jira_client = Some session ->
  let name := tc_name tool_call in
  let sent := if json_truthy (tc_arguments tool_call)
              then tc_arguments tool_call else JObj [] in
  let '(w, r) := session_call_tool session name sent (world st) in
  exists o,
    invoke session_call_tool mcp_jira_client tool_call st
    = ({| world := w;
          trace := trace st
                     ++ [EvSession name sent;
                         EvTool name (tc_arguments tool_call) o] |},
       inr (match r with
            | inl e => "Error calling tool '" ++ name ++ "': " ++ exn_str e
            | inr result =>
                if isError result
                then "Error calling tool '" ++ name ++ "': MCP tool '"
                       ++ name ++ "' failed: " ++ _extract_text result
                else _extract_text result
            end)).
Proof.
  intros S name sent.
  pose proof (call_tool_connected session_call_tool mcp_jira_client session
                name (tc_arguments tool_call) st S) as C.
  cbv zeta in C. fold sent in C.
  pose proof (invoke_spec session_call_tool mcp_jira_client tool_call st) as I.
  fold name in I.
  destruct (session_call_tool session name sent (world st)) as [w r].
  rewrite C in I. eexists. rewrite I. cbn [world trace].
  rewrite <- app_assoc. cbn [app]. f_equal.
  destruct r as [e|result]; [reflexivity|].
  destruct (isError result); reflexivity.
Qed.

(** X7.  Every response [call_llm_with_tools] returns carries the raw
    assistant message and exactly one of the two payloads: either a
    non-empty list of tool calls mirroring the message's tool calls one for
    one (same ids and names, arguments decoded) and no final text, or no tool
    calls and the message content (the empty string when absent) as final
    text; a message with an empty tool-call list counts as a final answer.
    The call reaches the chat service once and leaves the trace alone. *)
Theorem call_llm_with_tools_shape
    (messages : list Message) (tools : list ToolDef)
    (st st1 : St World) (response : LLMToolResponse) :
  call_llm messages tools st = (st1, inr response) ->
  exists message,
    chat_completions_create messages
      (match tools with [] => None | _ :: _ => Some tools end) (world st)
    = (world st1, inr message)
    /\ trace st1 = trace st
    /\ resp_assistant_message response = Some message
    /\ ((exists raw call calls,
            cm_tool_calls message = Some raw
            /\ resp_tool_calls response = Some (call :: calls)
            /\ Forall2 (decoded json_loads) raw (call :: calls)
            /\ resp_final_text response = None
            /\ wants_tool_calls response = true)
        \/ ((cm_tool_calls message = None \/ cm_tool_calls message = Some [])
            /\ resp_tool_calls response = None
            /\ resp_final_text response
               = Some (match cm_content message with
                       | Some text => text
                       | None => EmptyString
                       end)
            /\ wants_tool_calls response = false)).
Proof.
  unfold call_llm_with_tools, bind, external, ret.
  destruct (chat_completions_create _ _ (world st)) as [w [e|message]];
    [discriminate|].
  destruct (cm_tool_calls message) as [[|tc tcs]|] eqn:TC;
    cbn [opt_list_truthy opt_list_items].
  - intros [= <- <-]. exists message. repeat split. right.
    repeat split; auto. destruct (cm_content message) as [[|c s]|]; reflexivity.
  - destruct (decode_tool_calls json_loads (tc :: tcs) _)
      as [s1 [e|calls]] eqn:D; [discriminate|].
    pose proof (decode_tool_calls_state json_loads (tc :: tcs)
                  {| world := w; trace := trace st |}) as E.
    rewrite D in E. cbn [fst] in E. subst s1.
    intros [= <- <-]. exists message. repeat split. left.
    pose proof (decode_tool_calls_inv _ _ _ _ _ D) as F.
    destruct calls as [|call calls]; [inversion F|].
    exists (tc :: tcs), call, calls. repeat split; auto.
  - intros [= <- <-]. exists message. repeat split. right.
    repeat split; auto. destruct (cm_content message) as [[|c s]|]; reflexivity.
Qed.

(** X9.  The webhook accepts a payload exactly when its mode is
    "first_pass" or "pm_feedback".  A rejected payload raises
    HTTPException 422 whose detail quotes the mode, and no task is created;
    an accepted one creates the background task for that payload and echoes
    the issue key and the mode.  So a run started through the webhook builds
    the feedback prompt only for mode "pm_feedback". *)
Theorem jira_refine_validates_mode
    (mcp_jira_client : MCPJiraClient Session) (payload : WebhookPayload) :
  let refine :=
    jira_refine chat_completions_create json_loads session_call_tool
      load_domain_config model_validate mcp_jira_client in
  let valid := wp_mode payload = "first_pass"
               \/ wp_mode payload = "pm_feedback" in
  (valid ->
   refine payload
   = inr (_safe_handle chat_completions_create json_loads session_call_tool
            load_domain_config model_validate mcp_jira_client payload,
          [("status", "accepted"); ("issue", wp_issue_key payload);
           ("mode", wp_mode payload)]))
  /\ (~ valid ->
      refine payload
      = inl {| status_code := 422;
               detail := "Invalid mode '" ++ wp_mode payload
                           ++ "'. Must be 'first_pass' or 'pm_feedback'." |})
  /\ (forall task response config,
         refine payload = inr (task, response) ->
         valid
         /\ (wp_mode payload <> "first_pass" ->
             Prompts.build_agent_prompt (wp_issue_key payload) (wp_mode payload)
               (wp_pm_comment payload) config
             = Prompts.build_agent_prompt (wp_issue_key payload) "pm_feedback"
                 (wp_pm_comment payload) config)).
Proof.
  intros refine valid. subst refine valid. unfold jira_refine.
  destruct (String.eqb_spec (wp_mode payload) "first_pass") as [E1|N1];
    destruct (String.eqb_spec (wp_mode payload) "pm_feedback") as [E2|N2];
    cbn [orb negb].
  - rewrite E2 in E1. discriminate E1.
  - split; [reflexivity|]. split; [intros N; exfalso; apply N; now left|].
    intros task response config _. split; [now left|]. intros N. contradiction.
  - split; [reflexivity|]. split; [intros N; exfalso; apply N; now right|].
    intros task response config _. split; [now right|]. intros _.
    rewrite E2. reflexivity.
  - split; [intros [E|E]; contradiction|]. split; [reflexivity|].
    intros task response config H. discriminate H.
Qed.

End LoopExtras2.

(** ** The extras on the scenarios *)

(** The recovering run ends with a final answer. *)
Lemma run_agent_loop_outcomes_witness :
  exists pre log response message,
    trace (fst Scenario.recovering)
    = (pre ++ [EvLLM log (get_tools_as_openai_functions Scenario.connected)
                 (inr response)])%list
    /\ resp_assistant_message response = Some message
    /\ snd Scenario.recovering
       = inr (match cm_content message with
              | Some text => text
              | None => EmptyString
              end).
Proof.
  assert (run_agent_loop
            (Scenario.chat_script
               [Scenario.wants_search; Scenario.says "Could not find the issue."])
            Scenario.json_loads
            (Scenario.session_raises (RuntimeError "not found"))
            Scenario.load_default Scenario.validate
            Scenario.connected "MISSING-1" "first_pass" None Scenario.start
          = (fst Scenario.recovering, snd Scenario.recovering)) as R
    by (unfold Scenario.recovering; apply surjective_pairing).
  assert (trace (fst Scenario.recovering)
          = trace Scenario.start ++ trace (fst Scenario.recovering))%list as T
    by (cbn [Scenario.start trace app]; reflexivity).
  assert (snd Scenario.recovering = inr "Could not find the issue.") as Out
    by (vm_compute; reflexivity).
  destruct (run_agent_loop_outcomes _ _ _ _ _ _ _ _ _ _ _ _ _ R T)
    as [[E _] | [(_ & _ & Max) | [(pre & log & r & m & E & _ & _ & _ & A & O)
                                 | (pre & log & e & _ & _ & _ & O)]]].
  - vm_compute in E. discriminate E.
  - rewrite Out in Max. discriminate Max.
  - exists pre, log, r, m. repeat split; assumption.
  - rewrite Out in O. discriminate O.
Defined.

(** In the two-request run both requests are invoked, in order. *)
Lemma every_request_invoked_once_witness :
  tool_invocations (trace (fst Scenario.two_calls))
  = requested (trace (fst Scenario.two_calls))
  /\ tool_calls_made (trace (fst Scenario.two_calls))
     = List.length (requested (trace (fst Scenario.two_calls))).
Proof.
  assert (run_agent_loop
            (Scenario.chat_script [Scenario.wants_two; Scenario.says "Refined"])
            Scenario.json_loads (Scenario.session_returns Scenario.ok_result)
            Scenario.load_default Scenario.validate
            Scenario.connected "PROJ-1" "first_pass" None Scenario.start
          = (fst Scenario.two_calls, snd Scenario.two_calls)) as R
    by (unfold Scenario.two_calls; apply surjective_pairing).
  assert (trace (fst Scenario.two_calls)
          = trace Scenario.start ++ trace (fst Scenario.two_calls))%list as T
    by (cbn [Scenario.start trace app]; reflexivity).
  exact (every_request_invoked_once _ _ _ _ _ _ _ _ _ _ _ _ _ R T).
Defined.

(** In the two-request run the second log extends the first. *)
Lemma logs_are_append_only_witness :
  exists log1 log2 ext,
    logs_sent (trace (fst Scenario.two_calls)) = [log1; log2]
    /\ log2 = (log1 ++ ext)%list
    /\ 2 <= List.length ext.
Proof.
  assert (run_agent_loop
            (Scenario.chat_script [Scenario.wants_two; Scenario.says "Refined"])
            Scenario.json_loads (Scenario.session_returns Scenario.ok_result)
            Scenario.load_default Scenario.validate
            Scenario.connected "PROJ-1" "first_pass" None Scenario.start
          = (fst Scenario.two_calls, snd Scenario.two_calls)) as R
    by (unfold Scenario.two_calls; apply surjective_pairing).
  assert (trace (fst Scenario.two_calls)
          = trace Scenario.start ++ trace (fst Scenario.two_calls))%list as T
    by (cbn [Scenario.start trace app]; reflexivity).
  destruct (logs_are_append_only _ _ _ _ _ _ _ _ _ _ _ _ _ R T) as [_ Grow].
  remember (trace (fst Scenario.two_calls)) as evs eqn:E.
  vm_compute in E.
  match type of E with
  | _ = EvLLM ?l1 ?t1 ?o1 :: ?rest =>
      match rest with
      | context [EvLLM ?l2 ?t2 ?o2] =>
          destruct (Grow [] l1 t1 o1 rest E l2 t2 o2) as (ext & X & L);
            [do 4 right; left; reflexivity|];
            exists l1, l2, ext
      end
  end.
  split; [rewrite E; reflexivity|]. split; assumption.
Defined.

(** A truncated argument text ends the iteration with the decoder's error
    before any tool is invoked. *)
Lemma undecodable_arguments_abort_turn_witness :
  exists e,
    agent_iterations (Scenario.chat_always Cases.garbled) Scenario.json_loads
      (Scenario.session_returns Scenario.ok_result) Scenario.connected
      15 "PROJ-1" (get_tools_as_openai_functions Scenario.connected) 15 []
      Scenario.start
    = ({| world := 1;
          trace := [EvLLM [] (get_tools_as_openai_functions Scenario.connected)
                      (inl e)] |},
       inl e).
Proof.
  destruct (undecodable_arguments_abort_turn
              (Scenario.chat_always Cases.garbled) Scenario.json_loads
              (Scenario.session_returns Scenario.ok_result)
              Scenario.connected 15 "PROJ-1"
              (get_tools_as_openai_functions Scenario.connected) 14 []
              Scenario.start 1 Cases.garbled
              {| ctc_id := "call_bad";
                 ctc_function := {| fn_name := "jira_search";
                                    fn_arguments := Scenario.TRUNCATED_ARGS |} |}
              Scenario.UnterminatedString
              eq_refl (or_intror (or_introl eq_refl)) eq_refl)
    as (tc & e' & _ & _ & _ & L).
  exists e'. exact L.
Defined.


(** A flagged result is answered with the doubly prefixed error text. *)
Lemma tool_request_on_started_client_witness :
  exists st1,
    invoke (Scenario.session_returns Scenario.error_result) Scenario.connected
      {| tc_id := "call_123"; tc_name := "jira_get_issue";
         tc_arguments := JNull |} Scenario.start
    = (st1,
       inr ("Error calling tool 'jira_get_issue': MCP tool 'jira_get_issue' "
              ++ "failed: Issue does not exist")).
Proof.
  pose proof (tool_request_on_started_client
                (Scenario.session_returns Scenario.error_result)
                Scenario.connected tt
                {| tc_id := "call_123"; tc_name := "jira_get_issue";
                   tc_arguments := JNull |} Scenario.start eq_refl) as H.
  cbn in H. destruct H as [o H]. eexists. exact H.
Defined.

(** A turn with two tool calls is returned as two decoded calls. *)
Lemma call_llm_with_tools_shape_witness :
  exists st1 response call calls,
    call_llm_with_tools (Scenario.chat_always Scenario.wants_two)
      Scenario.json_loads [] [] Scenario.start
    = (st1, inr response)
    /\ resp_tool_calls response = Some (call :: calls)
    /\ resp_final_text response = None.
Proof.
  assert (call_llm_with_tools (Scenario.chat_always Scenario.wants_two)
            Scenario.json_loads [] [] Scenario.start
          = ({| world := 1; trace := [] |},
             inr {| resp_tool_calls :=
                      Some [ {| tc_id := "call_123"; tc_name := "jira_get_issue";
                                tc_arguments :=
                                  JObj [("issue_key", JStr "PROJ-1")] |};
                             {| tc_id := "call_loop"; tc_name := "jira_search";
                                tc_arguments :=
                                  JObj [("jql", JStr "project=PROJ")] |} ];
                    resp_final_text := None;
                    resp_assistant_message := Some Scenario.wants_two |})) as L
    by reflexivity.
  destruct (call_llm_with_tools_shape _ _ _ _ _ _ _ L)
    as (message & _ & _ & _ & [(raw & call & calls & _ & C & _ & F & _)
                              | (_ & C & _)]).
  - eexists _, _, call, calls. split; [exact L|]. split; assumption.
  - discriminate C.
Defined.

(** The webhook accepts "first_pass" and rejects "invalid_mode". *)
Lemma jira_refine_validates_mode_witness :
  (exists task,
      jira_refine (Scenario.chat_always (Scenario.says "Done")) Scenario.json_loads
        (Scenario.session_returns Scenario.ok_result) Scenario.load_default
        Scenario.validate Scenario.connected Cases.first_pass_payload
      = inr (task, [("status", "accepted"); ("issue", "PROJ-1");
                    ("mode", "first_pass")]))
  /\ jira_refine (Scenario.chat_always (Scenario.says "Done")) Scenario.json_loads
       (Scenario.session_returns Scenario.ok_result) Scenario.load_default
       Scenario.validate Scenario.connected Cases.invalid_payload
     = inl {| status_code := 422;
              detail := "Invalid mode 'invalid_mode'. Must be 'first_pass' "
                          ++ "or 'pm_feedback'." |}.
Proof.
  split.
  - destruct (jira_refine_validates_mode
                (Scenario.chat_always (Scenario.says "Done")) Scenario.json_loads
                (Scenario.session_returns Scenario.ok_result)
                Scenario.load_default Scenario.validate Scenario.connected
                Cases.first_pass_payload) as [Ok _].
    eexists. exact (Ok (or_introl eq_refl)).
  - destruct (jira_refine_validates_mode
                (Scenario.chat_always (Scenario.says "Done")) Scenario.json_loads
                (Scenario.session_returns Scenario.ok_result)
                Scenario.load_default Scenario.validate Scenario.connected
                Cases.invalid_payload) as (_ & Bad & _).
    apply Bad. intros [E|E]; discriminate E.
Defined.

(** ** The client's life cycle *)

Section LifecycleFacts.

Context {World Session Streams ExitStack : Type}.
Variable new_exit_stack : World -> World * ExitStack.
Variable enter_stdio_client : ExitStack -> World -> World * (Exn + Streams).
Variable enter_client_session :
  ExitStack -> Streams -> World -> World * (Exn + Session).
Variable session_initialize : Session -> World -> World * (Exn + unit).
Variable session_list_tools : Session -> World -> World * (Exn + list Tool).
Variable exit_stack_aclose : ExitStack -> World -> World * (Exn + unit).

Local Abbreviation Proc := (World * ClientObject Session ExitStack)%type.
Local Abbreviation starting :=
  (start new_exit_stack enter_stdio_client enter_client_session
     session_initialize session_list_tools).
Local Abbreviation stopping := (stop (World := World) (Session := Session) exit_stack_aclose).



(** X10.  What [start] leaves behind.  If it returns, the client holds the
    exit stack and the session it opened, reports connected, and its tool
    cache is the list the server returned through that session.  If it
    raises, the tool cache is untouched and the exit stack stays assigned;
    the session attribute is untouched when entering the subprocess or the
    session failed, but a failure of [initialize] or [list_tools] leaves
    the freshly opened session assigned, so that the client reports
    connected although [start] failed. *)
Theorem start_outcome (st st' : St Proc) (out : Exn + unit) :
  starting st = (st', out) ->
  let before := client_of st in
  let after := client_of st' in
  trace st' = trace st
  /\ (exists stack, _exit_stack after = Some stack)
  /\ match out with
     | inr _ =>
         exists session w,
           _session (obj_client after) = Some session
           /\ is_connected (obj_client after) = true
           /\ session_list_tools session w
              = (fst (world st'), inr (_tools (obj_client after)))
     | inl e =>
         _tools (obj_client after) = _tools (obj_client before)
         /\ ((_session (obj_client after) = _session (obj_client before)
              /\ exists stack w,
                   enter_stdio_client stack w = (fst (world st'), inl e)
                   \/ exists streams,
                        enter_client_session stack streams w
                        = (fst (world st'), inl e))
             \/ (exists session w,
                    _session (obj_client after) = Some session
                    /\ is_connected (obj_client after) = true
                    /\ (session_initialize session w
                        = (fst (world st'), inl e)
                        \/ session_list_tools session w
                           = (fst (world st'), inl e))))
     end.
Proof.
  destruct st as [[w0 self] tr].
  unfold start, bind, os, set_exit_stack, set_session, set_tools, external,
    client_of.
  cbn [world trace fst snd].
  destruct (new_exit_stack w0) as [w1 stack].
  cbn [world trace fst snd].
  destruct (enter_stdio_client stack w1) as [w2 [e|streams]] eqn:E2;
    cbn [world trace fst snd].
  { intros [= <- <-]. cbn. split; [reflexivity|]. split; [eauto|].
    split; [reflexivity|]. left. split; [reflexivity|].
    exists stack, w1. left. exact E2. }
  destruct (enter_client_session stack streams w2) as [w3 [e|session]] eqn:E3;
    cbn [world trace fst snd].
  { intros [= <- <-]. cbn. split; [reflexivity|]. split; [eauto|].
    split; [reflexivity|]. left. split; [reflexivity|].
    exists stack, w2. right. exists streams. exact E3. }
  destruct (session_initialize session w3) as [w4 [e|[]]] eqn:E4;
    cbn [world trace fst snd].
  { intros [= <- <-]. cbn. split; [reflexivity|]. split; [eauto|].
    split; [reflexivity|]. right. exists session, w3.
    split; [reflexivity|]. split; [reflexivity|]. left. exact E4. }
  destruct (session_list_tools session w4) as [w5 [e|tools]] eqn:E5;
    cbn [world trace fst snd].
  { intros [= <- <-]. cbn. split; [reflexivity|]. split; [eauto|].
    split; [reflexivity|]. right. exists session, w4.
    split; [reflexivity|]. split; [reflexivity|]. right. exact E5. }
  intros [= <- <-]. cbn. split; [reflexivity|]. split; [eauto|].
  exists session, w4. split; [reflexivity|]. split; [reflexivity|]. exact E5.
Qed.

(** X11.  What [stop] leaves behind.  On a client without an exit stack it
    does nothing at all.  If it returns on a client that owns its session,
    the client reports disconnected, holds no exit stack, and a second
    [stop] does nothing; but the tool cache is kept, so the catalog offered
    to the chat gateway is the one cached at start while every [call_tool]
    is refused.  If closing the exit stack raises, the object is left as it
    was: still connected if it was. *)
Theorem stop_outcome (st st' : St Proc) (out : Exn + unit) :
  stopping st = (st', out) ->
  let before := client_of st in
  let after := client_of st' in
  trace st' = trace st
  /\ _tools (obj_client after) = _tools (obj_client before)
  /\ get_tools_as_openai_functions (obj_client after)
     = get_tools_as_openai_functions (obj_client before)
  /\ (_exit_stack before = None -> st' = st /\ out = inr tt)
  /\ match out with
     | inr _ =>
         _exit_stack after = None
         /\ stopping st' = (st', inr tt)
         /\ (session_owned before ->
             is_connected (obj_client after) = false
             /\ forall (W : Type)
                       (session_call_tool :
                          Session -> string -> JSON -> W
                          -> W * (Exn + CallToolResult))
                       name arguments (s : St W),
                  call_tool session_call_tool (obj_client after) name
                    arguments s
                  = (s, inl (RuntimeError
                               "MCP client not connected. Call start() first.")))
     | inl e =>
         after = before
         /\ exists stack w,
              _exit_stack before = Some stack
              /\ exit_stack_aclose stack w = (fst (world st'), inl e)
     end.
Proof.
  destruct st as [[w0 [client [stack|]]] tr];
    unfold stop, bind, os, get_self, set_exit_stack, set_session, external,
      client_of, ret;
    cbn [world trace fst snd _exit_stack obj_client].
  - destruct (exit_stack_aclose stack w0) as [w1 [e|[]]] eqn:E;
      cbn [world trace fst snd _exit_stack obj_client]; intros [= <- <-]; cbn.
    + repeat split; try discriminate. eauto.
    + split; [reflexivity|]. split; [reflexivity|]. split; [reflexivity|].
      split; [discriminate|]. split; [reflexivity|]. split; [reflexivity|].
      intros _. split; reflexivity.
  - intros [= <- <-]. cbn.
    split; [reflexivity|]. split; [reflexivity|]. split; [reflexivity|].
    split; [auto|]. split; [reflexivity|]. split; [reflexivity|].
    intros Owned. unfold session_owned in Owned. cbn in Owned.
    specialize (Owned eq_refl). unfold is_connected. rewrite Owned.
    split; [reflexivity|]. intros W sct name arguments s.
    apply call_tool_disconnected. exact Owned.
Qed.


End LifecycleFacts.

(** ** The CORS origins *)

Section CorsFacts.

Context {Char : Type}.
Variable is_comma : Char -> bool.
Variable isspace : Char -> bool.

Local Abbreviation split := (split_commas is_comma).
Local Abbreviation lstrip' := (lstrip isspace).
Local Abbreviation rstrip' := (rstrip isspace).
Local Abbreviation strip' := (strip isspace).
Local Abbreviation origins := (cors_origins_list is_comma isspace).
Local Abbreviation comma_free := (Forall (fun c : Char => is_comma c = false)).

Lemma split_not_nil (s : list Char) : split s <> [].
Proof.
  induction s as [|c s IH]; cbn; [discriminate|].
  destruct (is_comma c); [discriminate|].
  destruct (split s); discriminate.
Qed.

Lemma split_comma_free (s : list Char) : Forall comma_free (split s).
Proof.
  induction s as [|c s IH]; cbn; [repeat constructor|].
  destruct (is_comma c) eqn:C; [constructor; [constructor|exact IH]|].
  destruct (split s) as [|piece pieces]; [repeat constructor; exact C|].
  inversion IH; subst. constructor; [constructor; assumption|assumption].
Qed.

Lemma lstrip_split (s : list Char) :
  exists spaces,
    s = (spaces ++ lstrip' s)%list /\ Forall (fun c => isspace c = true) spaces.
Proof.
  induction s as [|c s (spaces & E & F)]; [exists []; split; constructor|].
  cbn. destruct (isspace c) eqn:C.
  - exists (c :: spaces). split; [cbn; now rewrite <- E|now constructor].
  - exists []. split; [reflexivity|constructor].
Qed.

Lemma lstrip_head (s : list Char) (c : Char) (rest : list Char) :
  lstrip' s = c :: rest -> isspace c = false.
Proof.
  induction s as [|d s IH]; cbn; [discriminate|].
  destruct (isspace d) eqn:D; [exact IH|].
  intros [= <- _]. exact D.
Qed.

Lemma lstrip_clean (s : list Char) :
  (forall c rest, s = c :: rest -> isspace c = false) -> lstrip' s = s.
Proof.
  destruct s as [|c s]; [reflexivity|].
  intros H. cbn. now rewrite (H c s eq_refl).
Qed.

Lemma rstrip_split (s : list Char) :
  exists spaces,
    s = (rstrip' s ++ spaces)%list /\ Forall (fun c => isspace c = true) spaces.
Proof.
  unfold rstrip. destruct (lstrip_split (rev s)) as (spaces & E & F).
  exists (rev spaces). split.
  - rewrite <- rev_app_distr, <- E. now rewrite rev_involutive.
  - now apply Forall_rev.
Qed.

Lemma rstrip_last (s : list Char) (c : Char) (front : list Char) :
  rstrip' s = (front ++ [c])%list -> isspace c = false.
Proof.
  unfold rstrip. intros H.
  apply (f_equal (@rev Char)) in H.
  rewrite rev_involutive, rev_app_distr in H. cbn in H.
  exact (lstrip_head _ _ _ H).
Qed.

Lemma rstrip_clean (s : list Char) :
  (forall c front, s = (front ++ [c])%list -> isspace c = false) ->
  rstrip' s = s.
Proof.
  intros H. unfold rstrip. rewrite lstrip_clean; [apply rev_involutive|].
  intros c rest E. apply (H c (rev rest)).
  apply (f_equal (@rev Char)) in E. rewrite rev_involutive in E.
  rewrite E. reflexivity.
Qed.

Lemma strip_head (s : list Char) (c : Char) (rest : list Char) :
  strip' s = c :: rest -> isspace c = false.
Proof.
  unfold strip. intros H.
  destruct (rstrip_split (lstrip' s)) as (spaces & E & _).
  rewrite H in E. cbn in E. exact (lstrip_head _ _ _ E).
Qed.

Lemma strip_sub (P : Char -> Prop) (s : list Char) :
  Forall P s -> Forall P (strip' s).
Proof.
  intros F. unfold strip.
  destruct (lstrip_split s) as (sp1 & E1 & _).
  destruct (rstrip_split (lstrip' s)) as (sp2 & E2 & _).
  rewrite E1 in F. apply Forall_app in F as [_ F].
  rewrite E2 in F. now apply Forall_app in F as [F _].
Qed.

Lemma strip_clean (o : list Char) :
  clean_origin is_comma isspace o -> strip' o = o.
Proof.
  intros (_ & H & L & _). unfold strip.
  rewrite (lstrip_clean o H). now apply rstrip_clean.
Qed.

Lemma origins_clean (CORS_ORIGINS : list Char) :
  Forall (clean_origin is_comma isspace) (origins CORS_ORIGINS).
Proof.
  unfold cors_origins_list. apply Forall_map. apply Forall_forall.
  intros o I. apply filter_In in I as [I T].
  destruct (strip' o) as [|c rest] eqn:S; [discriminate T|].
  rewrite <- S. split; [rewrite S; discriminate|]. split; [|split].
  - intros d r E. exact (strip_head _ _ _ E).
  - intros d front E. unfold strip in E. exact (rstrip_last _ _ _ E).
  - apply strip_sub.
    pose proof (split_comma_free CORS_ORIGINS) as F.
    rewrite Forall_forall in F. exact (F o I).
Qed.

(** X13.  Every origin [cors_origins_list] returns is non-empty, has no
    whitespace at either end and contains no comma; a setting made only of
    commas and whitespace yields no origin at all. *)
Theorem cors_origins_are_clean (CORS_ORIGINS : list Char) :
  Forall (clean_origin is_comma isspace) (origins CORS_ORIGINS)
  /\ (Forall (fun c => is_comma c = true \/ isspace c = true) CORS_ORIGINS ->
      origins CORS_ORIGINS = []).
Proof.
  split; [apply origins_clean|].
  intros Blank. unfold cors_origins_list.
  assert (Forall (fun o => strip' o = []) (split CORS_ORIGINS)) as Z.
  { pose proof (split_comma_free CORS_ORIGINS) as F.
    assert (Forall (Forall (fun c => is_comma c = true \/ isspace c = true))
              (split CORS_ORIGINS)) as B.
    { clear F. induction CORS_ORIGINS as [|c s IH]; cbn.
      - repeat constructor.
      - inversion Blank as [|? ? Hc Hs]; subst. specialize (IH Hs).
        destruct (is_comma c) eqn:C; [constructor; [constructor|exact IH]|].
        assert (is_comma c = true \/ isspace c = true) as Hc'
          by (destruct Hc as [Bad|Sp]; [discriminate Bad|right; exact Sp]).
        destruct (split s) as [|piece pieces].
        + constructor; [constructor; [exact Hc'|constructor]|constructor].
        + inversion IH; subst. constructor; [constructor|]; assumption. }
    rewrite Forall_forall in F, B. apply Forall_forall. intros o I.
    specialize (F o I). specialize (B o I).
    assert (Forall (fun c => isspace c = true) o) as Sp.
    { rewrite Forall_forall in F, B. apply Forall_forall. intros c Ic.
      destruct (B c Ic) as [C|C]; [rewrite (F c Ic) in C; discriminate|exact C]. }
    unfold strip.
    assert (lstrip' o = []) as ->.
    { clear -Sp. induction Sp as [|c o Hc _ IH]; [reflexivity|].
      cbn. now rewrite Hc. }
    reflexivity. }
  induction Z as [|o pieces Ho _ IH]; [reflexivity|].
  cbn. rewrite Ho. exact IH.
Qed.

(** *** Printing and parsing again *)

Lemma split_one (piece : list Char) :
  comma_free piece -> split piece = [piece].
Proof.
  induction 1 as [|c piece C _ IH]; [reflexivity|].
  cbn. now rewrite C, IH.
Qed.

Lemma split_joined (comma : Char) (piece rest : list Char) :
  is_comma comma = true -> comma_free piece ->
  split (piece ++ comma :: rest) = piece :: split rest.
Proof.
  intros Hc. induction 1 as [|c piece C _ IH]; cbn.
  - now rewrite Hc.
  - now rewrite C, IH.
Qed.

Lemma split_join (comma : Char) (pieces : list (list Char)) :
  is_comma comma = true -> pieces <> [] -> Forall comma_free pieces ->
  split (join_commas comma pieces) = pieces.
Proof.
  intros Hc N F. induction F as [|piece pieces P F IH]; [contradiction|].
  destruct pieces as [|next pieces].
  - cbn. now apply split_one.
  - cbn [join_commas]. rewrite (split_joined comma piece _ Hc P).
    f_equal. apply IH. discriminate.
Qed.

(** X14.  Round trip: joining clean origins with commas and reading the
    setting back gives the same list; in particular the property is
    idempotent through its own output. *)
Theorem cors_origins_round_trip (comma : Char) :
  is_comma comma = true ->
  (forall pieces : list (list Char),
      Forall (clean_origin is_comma isspace) pieces ->
      origins (join_commas comma pieces) = pieces)
  /\ (forall CORS_ORIGINS : list Char,
         origins (join_commas comma (origins CORS_ORIGINS))
         = origins CORS_ORIGINS).
Proof.
  intros Hc.
  assert (forall pieces : list (list Char),
             Forall (clean_origin is_comma isspace) pieces ->
             origins (join_commas comma pieces) = pieces) as RT.
  { intros pieces F. destruct pieces as [|p ps]; [reflexivity|].
    unfold cors_origins_list. rewrite split_join.
    - induction F as [|o os Ho _ IH]; [reflexivity|].
      cbn [filter]. rewrite (strip_clean o Ho).
      destruct Ho as (N & Ho). destruct o as [|c o]; [contradiction|].
      cbn [map]. rewrite IH.
      f_equal. apply strip_clean. split; [discriminate|exact Ho].
    - exact Hc.
    - discriminate.
    - apply Forall_impl with (2 := F). intros o (_ & _ & _ & C). exact C. }
  split; [exact RT|].
  intros s. apply RT. apply origins_clean.
Qed.

End CorsFacts.

(** ** The life cycle and the origins on the test doubles *)

(** When the handshake fails, [start] raises and yet the client reports
    connected and keeps its exit stack. *)
Lemma start_outcome_witness :
  snd Cases.half_started = inl (RuntimeError "handshake failed")
  /\ is_connected (obj_client (client_of (fst Cases.half_started))) = true
  /\ exists stack, _exit_stack (client_of (fst Cases.half_started)) = Some stack.
Proof.
  assert (start Cases.boot_stack Cases.boot_stdio Cases.boot_session
            Cases.initialize_fails Cases.boot_list_tools Cases.fresh
          = (fst Cases.half_started, snd Cases.half_started)) as R
    by (unfold Cases.half_started; apply surjective_pairing).
  destruct (start_outcome _ _ _ _ _ _ _ _ R) as (_ & S & _).
  split; [reflexivity|]. split; [reflexivity|exact S].
Defined.

(** Stopping the booted client disconnects it and keeps the two cached
    tools. *)
Lemma stop_outcome_witness :
  is_connected (obj_client (client_of (fst Cases.shut_down))) = false
  /\ _tools (obj_client (client_of (fst Cases.shut_down)))
     = [Scenario.get_issue_tool; Scenario.any_input_tool].
Proof.
  assert (stop Cases.close_ok (fst Cases.booted)
          = (fst Cases.shut_down, inr tt)) as R by reflexivity.
  destruct (stop_outcome _ _ _ _ R) as (_ & T & _ & _ & _ & _ & D).
  split.
  - apply D. intros N. discriminate N.
  - rewrite T. reflexivity.
Defined.


(** The sample setting yields two clean origins. *)
Lemma cors_origins_are_clean_witness :
  cors_origins_list Cases.ascii_comma Cases.ascii_isspace Cases.origins_setting
  = [list_ascii_of_string "http://localhost:3000";
     list_ascii_of_string "https://jira.example.com"]
  /\ Forall (clean_origin Cases.ascii_comma Cases.ascii_isspace)
       (cors_origins_list Cases.ascii_comma Cases.ascii_isspace
          Cases.origins_setting).
Proof.
  split; [vm_compute; reflexivity|].
  exact (proj1 (cors_origins_are_clean Cases.ascii_comma Cases.ascii_isspace
                  Cases.origins_setting)).
Defined.

(** Printing the origins of the sample setting and reading them again. *)
Lemma cors_origins_round_trip_witness :
  cors_origins_list Cases.ascii_comma Cases.ascii_isspace
    (join_commas ","%char
       (cors_origins_list Cases.ascii_comma Cases.ascii_isspace
          Cases.origins_setting))
  = cors_origins_list Cases.ascii_comma Cases.ascii_isspace
      Cases.origins_setting.
Proof.
  assert (Cases.ascii_comma ","%char = true) as C by reflexivity.
  exact (proj2 (cors_origins_round_trip Cases.ascii_comma Cases.ascii_isspace
                  ","%char C) Cases.origins_setting).
Defined.

(** ** The structured-output prompt builders *)

Section BuilderFacts.

Import Prompts StructuredPrompts.

Variable py_repr : JSON -> string.
Variable characters : string -> list string.

Local Abbreviation str := (py_str py_repr).
Local Abbreviation examples := (render_examples py_repr).
Local Abbreviation section := (similar_section py_repr).

Lemma starts_refl (a : string) : exists post, a = a ++ post.
Proof. exists EmptyString. now rewrite append_nil_r. Qed.

Lemma starts_head (a rest : string) : exists post, a ++ rest = a ++ post.
Proof. exists rest. reflexivity. Qed.

Lemma starts_step (a sub s : string) :
  (exists post, s = sub ++ post) -> exists post, a ++ s = (a ++ sub) ++ post.
Proof. intros [post ->]. exists post. now rewrite append_assoc. Qed.

Lemma Contains_starts (sub s : string) :
  (exists post, s = sub ++ post) -> Contains sub s.
Proof. intros [post ->]. apply Contains_head. Qed.

(** Finds a text in a text built by appending, both read as right-nested
    sequences of pieces. *)
Local Ltac starts :=
  repeat first [apply starts_refl | apply starts_head | apply starts_step].
Local Ltac locate :=
  first [ solve [apply Contains_starts; starts]
        | apply Contains_app_r; locate ].

Lemma py_get_dict (v : JSON) (key : string) (default : JSON) :
  is_dict v = true ->
  exists fields, v = JObj fields
                 /\ py_get v key default = inr (dict_get fields key default).
Proof.
  destruct v; try discriminate. intros _. eexists. split; reflexivity.
Qed.

Lemma py_get_no_dict (v : JSON) (key : string) (default : JSON) :
  is_dict v = false -> py_get v key default = inl (no_attribute_get v).
Proof.
  destruct v; try discriminate; intros _; reflexivity.
Qed.

Lemma examples_outcome (tickets : list JSON) (i : nat) :
  match find (fun t => negb (is_dict t)) tickets with
  | Some t => examples i tickets = inl (no_attribute_get t)
  | None => exists text, examples i tickets = inr text
  end.
Proof.
  revert i. induction tickets as [|t tickets IH]; intros i; cbn [find].
  - eexists. reflexivity.
  - destruct (is_dict t) eqn:D; cbn [negb].
    + destruct (py_get_dict t "summary" (JStr EmptyString) D) as (f & -> & _).
      specialize (IH (S i)). cbn [render_examples py_get and_then].
      destruct (find (fun t => negb (is_dict t)) tickets) as [bad|].
      * rewrite IH. reflexivity.
      * destruct IH as [text ->]. eexists. reflexivity.
    + cbn [render_examples]. rewrite (py_get_no_dict t _ _ D). reflexivity.
Qed.

Lemma examples_nth (tickets : list JSON) (i k : nat) (text : string)
    (fields : list (string * JSON)) :
  examples i tickets = inr text ->
  nth_error tickets k = Some (JObj fields) ->
  Contains ("### Example " ++ of_nat (i + k) ++ ": "
              ++ str (dict_get fields "summary" (JStr EmptyString)) ++ nl
              ++ str (dict_get fields "description" (JStr EmptyString))
              ++ nl ++ nl) text.
Proof.
  revert i k text. induction tickets as [|t tickets IH]; intros i k text R N.
  - destruct k; discriminate N.
  - cbn [render_examples] in R.
    destruct (py_get t "summary" (JStr EmptyString)) as [e|summary] eqn:Hs;
      [discriminate R|].
    destruct (py_get t "description" (JStr EmptyString))
      as [e|description] eqn:Hd; [discriminate R|].
    cbn [and_then] in R.
    destruct (examples (S i) tickets) as [e|more] eqn:M; [discriminate R|].
    cbn [and_then] in R. injection R as <-.
    destruct k as [|k].
    + cbn in N. injection N as ->. cbn in Hs, Hd.
      injection Hs as <-. injection Hd as <-.
      rewrite Nat.add_0_r. apply Contains_starts. exists more.
      rewrite !append_assoc. reflexivity.
    + cbn in N. specialize (IH (S i) k more M N).
      rewrite <- Nat.add_succ_comm.
      pose proof (Contains_app_r _
                    ("### Example " ++ of_nat i ++ ": " ++ str summary ++ nl
                       ++ str description ++ nl ++ nl) _ IH) as C.
      rewrite !append_assoc in C. exact C.
Qed.

Lemma firstn_3_twice {A : Type} (l : list A) :
  firstn 3 (firstn 3 l) = firstn 3 l.
Proof. rewrite firstn_firstn. reflexivity. Qed.

Lemma section_capped (similar_tickets : list JSON) :
  section similar_tickets = section (firstn 3 similar_tickets).
Proof.
  destruct similar_tickets as [|t rest]; [reflexivity|].
  unfold similar_section. rewrite firstn_3_twice. reflexivity.
Qed.

Lemma section_outcome (similar_tickets : list JSON) :
  match first_non_dict similar_tickets with
  | Some t => section similar_tickets = inl (no_attribute_get t)
  | None =>
      exists text,
        section similar_tickets = inr text
        /\ (similar_tickets = [] -> text = EmptyString)
        /\ forall k fields,
             k < 3 -> nth_error similar_tickets k = Some (JObj fields) ->
             Contains ("### Example " ++ of_nat (S k) ++ ": "
                         ++ str (dict_get fields "summary" (JStr EmptyString))
                         ++ nl
                         ++ str (dict_get fields "description"
                                   (JStr EmptyString))
                         ++ nl ++ nl) text
  end.
Proof.
  unfold first_non_dict.
  destruct similar_tickets as [|t rest].
  - cbn. exists EmptyString. split; [reflexivity|]. split; [reflexivity|].
    intros [|k] f _ N; discriminate N.
  - pose proof (examples_outcome (firstn 3 (t :: rest)) 1) as O.
    unfold similar_section.
    destruct (find (fun t => negb (is_dict t)) (firstn 3 (t :: rest)))
      as [bad|].
    + rewrite O. reflexivity.
    + destruct O as [text O]. rewrite O. cbn [and_then].
      eexists. split; [reflexivity|]. split; [discriminate|].
      intros k f K N.
      assert (nth_error (firstn 3 (t :: rest)) k = Some (JObj f)) as N'
        by (rewrite nth_error_firstn;
            destruct (Nat.ltb_spec k 3) as [_|Bad]; [exact N|lia]).
      pose proof (examples_nth _ 1 k text f O N') as C.
      cbn [Nat.add] in C. do 4 apply Contains_app_r. exact C.
Qed.

(** X15.  [build_feedback_prompt] reads at most the first three similar
    tickets.  It raises exactly when one of them is no dictionary, with the
    [AttributeError] of the first such value, whatever the other arguments
    are.  Otherwise it returns the system message (feedback instructions,
    domain context, feedback schema) and a user message that contains the
    original description (["(none)"] when it is absent or empty), the
    previous specification, the PM's comment, and for the k-th of the
    tickets read an example numbered k+1 with its summary and description,
    each the empty string when the key is missing. *)
Theorem build_feedback_prompt_outcome
    (original_description : option string)
    (previous_spec pm_comment : string) (similar_tickets : list JSON)
    (domain_config : DomainConfig) :
  let result :=
    build_feedback_prompt py_repr original_description previous_spec
      pm_comment similar_tickets domain_config in
  result = build_feedback_prompt py_repr original_description previous_spec
             pm_comment (firstn 3 similar_tickets) domain_config
  /\ match first_non_dict similar_tickets with
     | Some t => result = inl (no_attribute_get t)
     | None =>
         exists user_content,
           result
           = inr (prompt_messages
                    (SYSTEM_FEEDBACK ++ _domain_context domain_config
                       ++ _json_schema_hint "feedback") user_content)
           /\ Contains ("## Original rough description" ++ nl
                          ++ opt_or original_description "(none)" ++ nl)
                user_content
           /\ Contains ("## Previously proposed specification" ++ nl
                          ++ previous_spec ++ nl) user_content
           /\ Contains ("## PM's response" ++ nl ++ pm_comment ++ nl)
                user_content
           /\ forall k fields,
                k < 3 -> nth_error similar_tickets k = Some (JObj fields) ->
                Contains ("### Example " ++ of_nat (S k) ++ ": "
                            ++ str (dict_get fields "summary"
                                      (JStr EmptyString)) ++ nl
                            ++ str (dict_get fields "description"
                                      (JStr EmptyString)) ++ nl ++ nl)
                  user_content
     end.
Proof.
  cbv zeta. split.
  - unfold build_feedback_prompt. rewrite <- section_capped. reflexivity.
  - pose proof (section_outcome similar_tickets) as O.
    unfold build_feedback_prompt.
    destruct (first_non_dict similar_tickets) as [bad|].
    + rewrite O. reflexivity.
    + destruct O as (text & -> & _ & Ex). cbn [and_then].
      eexists. split; [reflexivity|].
      split; [|split; [|split]];
        try (apply Contains_app_l; rewrite ?append_assoc; locate).
      intros k f K N. apply Contains_app_r. exact (Ex k f K N).
Qed.

(** X16.  [build_first_pass_prompt] on arbitrary ticket fields.  It reads
    at most the first three similar tickets.  Its failures come in a fixed
    order: a value under ["issuetype"] that is no dictionary (a JSON null
    included) raises the [AttributeError] of that value; else the same for
    ["priority"]; else the [TypeError] of joining ["labels"]; else the
    [AttributeError] of the first similar ticket read that is no
    dictionary.  Otherwise it returns the first-pass system message and a
    user message with the summary and description (["N/A"] and
    ["(no description provided)"] when missing), type and priority names
    (["N/A"] when missing) and the joined labels (["none"] when empty). *)
Theorem build_first_pass_prompt_outcome
    (ticket_fields : list (string * JSON)) (similar_tickets : list JSON)
    (domain_config : DomainConfig) :
  let issuetype := dict_get ticket_fields "issuetype" (JObj []) in
  let priority := dict_get ticket_fields "priority" (JObj []) in
  let labels := dict_get ticket_fields "labels" (JArr []) in
  let result :=
    build_first_pass_prompt py_repr characters ticket_fields similar_tickets
      domain_config in
  result = build_first_pass_prompt py_repr characters ticket_fields
             (firstn 3 similar_tickets) domain_config
  /\ match issuetype, priority, py_join characters ", " labels,
           first_non_dict similar_tickets with
     | JObj type_fields, JObj priority_fields, inr joined, None =>
         exists user_content,
           result
           = inr (prompt_messages
                    (SYSTEM_FIRST_PASS ++ _domain_context domain_config
                       ++ _json_schema_hint "first_pass") user_content)
           /\ Contains ("**Summary:** "
                          ++ str (dict_get ticket_fields "summary"
                                    (JStr "N/A")) ++ nl) user_content
           /\ Contains ("**Description:**" ++ nl
                          ++ str (dict_get ticket_fields "description"
                                    (JStr "(no description provided)"))
                          ++ nl) user_content
           /\ Contains ("**Type:** "
                          ++ str (dict_get type_fields "name" (JStr "N/A"))
                          ++ nl) user_content
           /\ Contains ("**Priority:** "
                          ++ str (dict_get priority_fields "name"
                                    (JStr "N/A")) ++ nl) user_content
           /\ Contains ("**Labels:** " ++ or_else joined "none" ++ nl)
                user_content
           /\ forall k fields,
                k < 3 -> nth_error similar_tickets k = Some (JObj fields) ->
                Contains ("### Example " ++ of_nat (S k) ++ ": "
                            ++ str (dict_get fields "summary"
                                      (JStr EmptyString)) ++ nl
                            ++ str (dict_get fields "description"
                                      (JStr EmptyString)) ++ nl ++ nl)
                  user_content
     | JObj _, JObj _, inr _, Some t => result = inl (no_attribute_get t)
     | JObj _, JObj _, inl e, _ => result = inl e
     | JObj _, _, _, _ => result = inl (no_attribute_get priority)
     | _, _, _, _ => result = inl (no_attribute_get issuetype)
     end.
Proof.
  cbv zeta. split.
  - unfold build_first_pass_prompt. rewrite <- section_capped. reflexivity.
  - pose proof (section_outcome similar_tickets) as O.
    unfold build_first_pass_prompt.
    destruct (dict_get ticket_fields "issuetype" (JObj [])) as [| | | | |tf];
      try reflexivity.
    destruct (dict_get ticket_fields "priority" (JObj [])) as [| | | | |pf];
      try reflexivity.
    cbn [py_get and_then].
    destruct (py_join characters ", " (dict_get ticket_fields "labels" (JArr [])))
      as [e|joined]; [reflexivity|].
    cbn [and_then].
    destruct (first_non_dict similar_tickets) as [bad|].
    + rewrite O. reflexivity.
    + destruct O as (text & -> & _ & Ex). cbn [and_then].
      eexists. split; [reflexivity|].
      repeat match goal with
             | |- _ /\ _ => split
             end;
        try (apply Contains_app_l; rewrite ?append_assoc; locate).
      intros k f K N. apply Contains_app_r. exact (Ex k f K N).
Qed.

End BuilderFacts.

(** ** Mode and comment *)

Section ModeFacts.

Context {World Session RawConfig : Type}.
Variable chat_completions_create :
  list Message -> option (list ToolDef) -> World -> World * (Exn + ChatMessage).
Variable json_loads : string -> Exn + JSON.
Variable session_call_tool :
  Session -> string -> JSON -> World -> World * (Exn + CallToolResult).
Variable load_domain_config : World -> World * (Exn + RawConfig).
Variable model_validate : RawConfig -> Exn + DomainConfig.

Local Abbreviation run :=
  (run_agent_loop chat_completions_create json_loads session_call_tool
     load_domain_config model_validate).

Lemma run_same_prompt (mcp_jira_client : MCPJiraClient Session)
    (issue_key mode mode' : string) (pm_comment pm_comment' : option string)
    (st : St World) :
  (forall config,
      Prompts.build_agent_prompt issue_key mode pm_comment config
      = Prompts.build_agent_prompt issue_key mode' pm_comment' config) ->
  run mcp_jira_client issue_key mode pm_comment st
  = run mcp_jira_client issue_key mode' pm_comment' st.
Proof.
  intros P. unfold run_agent_loop, run_agent_loop_with, bind.
  destruct (_get_domain_config load_domain_config model_validate st)
    as [st1 [e|config]]; [reflexivity|].
  rewrite (P config). reflexivity.
Qed.

(** X17.  How the mode and the PM's comment reach a run: only through the
    prompt.  In ["first_pass"] mode the comment is ignored; every mode other
    than ["first_pass"], whatever its spelling, is handled as
    ["pm_feedback"]; and an empty comment is handled as a missing one.  In
    each case the two prompts are equal, and so are the two runs: same
    result and same calls to the chat and tool gateways (the log records,
    which name the mode, are not part of the model). *)
Theorem mode_and_comment_only_through_prompt
    (mcp_jira_client : MCPJiraClient Session)
    (issue_key mode : string) (pm_comment : option string)
    (config : DomainConfig) (st : St World) :
  (forall other,
      Prompts.build_agent_prompt issue_key "first_pass" pm_comment config
      = Prompts.build_agent_prompt issue_key "first_pass" other config
      /\ run mcp_jira_client issue_key "first_pass" pm_comment st
         = run mcp_jira_client issue_key "first_pass" other st)
  /\ (mode <> "first_pass" ->
      Prompts.build_agent_prompt issue_key mode pm_comment config
      = Prompts.build_agent_prompt issue_key "pm_feedback" pm_comment config
      /\ run mcp_jira_client issue_key mode pm_comment st
         = run mcp_jira_client issue_key "pm_feedback" pm_comment st)
  /\ (Prompts.build_agent_prompt issue_key "pm_feedback" (Some EmptyString)
        config
      = Prompts.build_agent_prompt issue_key "pm_feedback" None config
      /\ run mcp_jira_client issue_key "pm_feedback" (Some EmptyString) st
         = run mcp_jira_client issue_key "pm_feedback" None st).
Proof.
  split; [|split].
  - intros other. split; [reflexivity|].
    apply run_same_prompt. reflexivity.
  - intros Hm.
    assert (String.eqb mode "first_pass" = false) as E
      by (apply String.eqb_neq; exact Hm).
    assert (forall c,
               Prompts.build_agent_prompt issue_key mode pm_comment c
               = Prompts.build_agent_prompt issue_key "pm_feedback" pm_comment
                   c) as P
      by (intros c; unfold Prompts.build_agent_prompt; rewrite E;
          reflexivity).
    split; [apply P|]. apply run_same_prompt. exact P.
  - split; [reflexivity|]. apply run_same_prompt. reflexivity.
Qed.

End ModeFacts.

(** ** Modes and builders on the test doubles *)

(** A misspelt mode runs as a feedback request. *)
Lemma mode_and_comment_only_through_prompt_witness :
  run_agent_loop (Scenario.chat_always (Scenario.says "Done"))
    Scenario.json_loads (Scenario.session_returns Scenario.ok_result)
    Scenario.load_default Scenario.validate Scenario.connected
    "PROJ-1" "firstpass" None Scenario.start
  = run_agent_loop (Scenario.chat_always (Scenario.says "Done"))
      Scenario.json_loads (Scenario.session_returns Scenario.ok_result)
      Scenario.load_default Scenario.validate Scenario.connected
      "PROJ-1" "pm_feedback" None Scenario.start.
Proof.
  assert ("firstpass" <> "first_pass") as Hm by discriminate.
  exact (proj2 (proj1 (proj2 (mode_and_comment_only_through_prompt
                                (Scenario.chat_always (Scenario.says "Done"))
                                Scenario.json_loads
                                (Scenario.session_returns Scenario.ok_result)
                                Scenario.load_default Scenario.validate
                                Scenario.connected "PROJ-1" "firstpass" None
                                default_domain_config Scenario.start))
                 Hm)).
Defined.

(** The malformed fourth similar ticket is never read; the third, an empty
    dictionary, gives an example without text. *)
Lemma build_feedback_prompt_outcome_witness :
  exists user_content,
    StructuredPrompts.build_feedback_prompt Cases.no_repr None "Spec v1"
      "Looks good" Cases.four_similar default_domain_config
    = inr (StructuredPrompts.prompt_messages
             (StructuredPrompts.SYSTEM_FEEDBACK
                ++ Prompts._domain_context default_domain_config
                ++ StructuredPrompts._json_schema_hint "feedback")
             user_content)
    /\ Contains ("### Example 3: " ++ nl ++ nl ++ nl) user_content.
Proof.
  pose proof (proj2 (build_feedback_prompt_outcome Cases.no_repr None "Spec v1"
                       "Looks good" Cases.four_similar default_domain_config))
    as H.
  destruct H as (user_content & E & _ & _ & _ & Ex).
  exists user_content. split; [exact E|].
  exact (Ex 2 [] (le_n 3) eq_refl).
Defined.

(** A ticket whose priority is null cannot be rendered. *)
Lemma build_first_pass_prompt_outcome_witness :
  StructuredPrompts.build_first_pass_prompt Cases.no_repr
    Cases.ascii_characters Cases.unprioritised Cases.four_similar
    default_domain_config
  = inl (AttributeError "'NoneType' object has no attribute 'get'")
  /\ exists user_content,
       StructuredPrompts.build_first_pass_prompt Cases.no_repr
         Cases.ascii_characters Cases.prioritised Cases.four_similar
         default_domain_config
       = inr (StructuredPrompts.prompt_messages
                (StructuredPrompts.SYSTEM_FIRST_PASS
                   ++ Prompts._domain_context default_domain_config
                   ++ StructuredPrompts._json_schema_hint "first_pass")
                user_content)
       /\ Contains ("**Labels:** ui, theme" ++ nl) user_content.
Proof.
  split.
  - exact (proj2 (build_first_pass_prompt_outcome Cases.no_repr
                    Cases.ascii_characters Cases.unprioritised
                    Cases.four_similar default_domain_config)).
  - pose proof (proj2 (build_first_pass_prompt_outcome Cases.no_repr
                         Cases.ascii_characters Cases.prioritised
                         Cases.four_similar default_domain_config)) as H.
    destruct H as (user_content & E & _ & _ & _ & _ & L & _).
    exists user_content. split; [exact E|exact L].
Defined.
